(** * Map datasets of gammapy: prediction, stacking and I/O

    A shallow embedding of [gammapy/datasets/map.py] ([MapDataset],
    [MapDatasetOnOff]) and of [PSFMap.get_psf_kernel] / [PSFMap.sample_coord]
    from [gammapy/irf/psf/psf_map.py].

    Numbers.  Map bins hold finite float64 values; they are represented by
    canonical rationals [Qc], so that equal values are equal terms.  Rounding
    is not modelled, and so non-finite bin values do not arise: [np.nan_to_num]
    is the identity on the bins.  Model parameter values, whose comparison
    involves NaN, are represented by [fval] (a finite value or NaN).

    Maps.  A geometry is the list of its named axes with their bin counts; a
    map is a geometry and its flattened data. *)

From Stdlib Require Import QArith Qround Qcanon List String Bool ZArith Lia Lqa.
Import ListNotations.

Open Scope Qc_scope.

(** ** Values *)

Definition qc0 : Qc := Q2Qc 0.
Definition qc1 : Qc := Q2Qc 1.

(** Float comparisons on bin values ([==] and [<]). *)
Definition qc_eqb (x y : Qc) : bool := Qeq_bool x y.
Definition qc_ltb (x y : Qc) : bool := negb (Qle_bool y x).

(** A float64 model-parameter value: finite, or NaN.  Python's [==] on
    floats: NaN is equal to nothing, itself included. *)
Inductive fval := Fin (q : Qc) | NaN.

Definition fval_eqb (x y : fval) : bool :=
  match x, y with
  | Fin a, Fin b => qc_eqb a b
  | _, _ => false
  end.

(** ** Geometries and maps *)

Definition Geom := list (string * nat).

Definition geom_size (g : Geom) : nat :=
  fold_right (fun ax n => (snd ax * n)%nat) 1%nat g.

Record Map (A : Type) := mkMap { geom : Geom; data : list A }.
Arguments mkMap {A} _ _.
Arguments geom {A} _.
Arguments data {A} _.

(** [Map.from_geom(geom)]: a zero-filled map (an all-False one for masks). *)
Definition map_from_geom (g : Geom) : Map Qc := mkMap g (repeat qc0 (geom_size g)).
Definition mask_from_geom (g : Geom) : Map bool := mkMap g (repeat false (geom_size g)).

Definition b2qc (b : bool) : Qc := if b then qc1 else qc0.

(** Modelled from the spec: [Map.stack(other, weights, nan_to_num)] of the maps
    package (not part of the sources).  "additive, weighted by [weights]": each
    bin of [self] receives [other * weights]; bins of [self] that [other] does
    not cover are left as they are.  On boolean maps the stacking is a logical
    OR. *)
Fixpoint stack_weighted (a b : list Qc) (w : list bool) : list Qc :=
  match a, b, w with
  | x :: a', y :: b', v :: w' => x + y * b2qc v :: stack_weighted a' b' w'
  | _, _, _ => a
  end.

Fixpoint stack_plain (a b : list Qc) : list Qc :=
  match a, b with
  | x :: a', y :: b' => x + y :: stack_plain a' b'
  | _, _ => a
  end.

Definition map_stack (self other : Map Qc) (weights : option (Map bool)) : Map Qc :=
  mkMap (geom self)
    (match weights with
     | None => stack_plain (data self) (data other)
     | Some w => stack_weighted (data self) (data other) (data w)
     end).

Fixpoint or_data (a b : list bool) : list bool :=
  match a, b with
  | x :: a', y :: b' => (x || y) :: or_data a' b'
  | _, _ => a
  end.

Definition mask_stack (self other : Map bool) : Map bool :=
  mkMap (geom self) (or_data (data self) (data other)).

(** ** Raised exceptions

    Python code that may raise returns a [result]; [Raise] stands for any
    exception escaping the call. *)
Inductive result (A : Type) : Type := Ok (a : A) | Raise.
Arguments Ok {A} _.
Arguments Raise {A}.

Definition bind {A B : Type} (r : result A) (f : A -> result B) : result B :=
  match r with Ok a => f a | Raise => Raise end.

Notation "'let*' x ':=' r 'in' f" := (bind r (fun x => f))
  (at level 200, x name, r at level 100, f at level 200).

(** Elementwise map arithmetic; numpy raises on a shape mismatch. *)
Definition map_binop (f : Qc -> Qc -> Qc) (a b : Map Qc) : result (Map Qc) :=
  if Nat.eqb (List.length (data a)) (List.length (data b))
  then Ok (mkMap (geom a) (map (fun p => f (fst p) (snd p)) (combine (data a) (data b))))
  else Raise.

(** [npred_total.data[npred_total.data < 0.0] = 0] *)
Definition clip_value (x : Qc) : Qc := if qc_ltb x qc0 then qc0 else x.

Definition clip_negative (m : Map Qc) : Map Qc :=
  mkMap (geom m) (map clip_value (data m)).

(** The largest finite float64, [(2^53 - 1) * 2^971]: [np.nan_to_num]
    replaces [+inf] by it and [-inf] by its opposite. *)
Definition float_max : Qc := Q2Qc (inject_Z ((2 ^ 53 - 1) * 2 ^ 971)).

(** [np.nan_to_num(x / y)] on one bin: [0/0] is NaN, mapped to 0; [x/0] for
    [x <> 0] is an infinity of the sign of [x], mapped to [+-float_max]. *)
Definition nan_to_num_div (x y : Qc) : Qc :=
  if qc_eqb y qc0 then
    (if qc_eqb x qc0 then qc0 else if qc_ltb qc0 x then float_max else - float_max)
  else x / y.

(** ** Datasets *)

(** A model evaluator ([MapEvaluator], an external collaborator).  After
    [evaluator.update(exposure, psf, edisp, geom, mask_image)] it either does
    not contribute ([None]) or its [compute_npred()] is the given map. *)
Record Evaluator := mkEvaluator {
  ev_name : string;
  ev_npred : Geom -> option (Map Qc)
}.

Inductive StatType := Cash | WStat.

(** The attributes of a [MapDataset] used below; [onoff] tells a
    [MapDatasetOnOff] instance, whose [background] is a property computed
    from [counts_off] (the field [background_] is then unused).
    [background_model] is the parameter-value vector of the attached
    [FoVBackgroundModel], if any.  [background_evaluations] counts the calls
    to the background model's [evaluate_geom] (instrumentation only). *)
Record MapDataset := mkDataset {
  onoff : bool;
  counts : option (Map Qc);
  background_ : option (Map Qc);
  counts_off : option (Map Qc);
  acceptance : option (Map Qc);
  acceptance_off : option (Map Qc);
  mask_safe : option (Map bool);
  mask_fit : option (Map bool);
  evaluators : list Evaluator;
  background_model : option (list fval);
  background_cached : option (Map Qc);
  background_parameters_cached : option (list fval);
  background_evaluations : nat;
  stat_type : StatType
}.

Definition set_counts (ds : MapDataset) (v : option (Map Qc)) : MapDataset :=
  mkDataset (onoff ds) v (background_ ds) (counts_off ds) (acceptance ds)
    (acceptance_off ds) (mask_safe ds) (mask_fit ds) (evaluators ds)
    (background_model ds) (background_cached ds) (background_parameters_cached ds)
    (background_evaluations ds) (stat_type ds).

Definition set_background (ds : MapDataset) (v : option (Map Qc)) : MapDataset :=
  mkDataset (onoff ds) (counts ds) v (counts_off ds) (acceptance ds)
    (acceptance_off ds) (mask_safe ds) (mask_fit ds) (evaluators ds)
    (background_model ds) (background_cached ds) (background_parameters_cached ds)
    (background_evaluations ds) (stat_type ds).

Definition set_onoff_maps (ds : MapDataset) (off acc acc_off : option (Map Qc)) : MapDataset :=
  mkDataset (onoff ds) (counts ds) (background_ ds) off acc acc_off
    (mask_safe ds) (mask_fit ds) (evaluators ds)
    (background_model ds) (background_cached ds) (background_parameters_cached ds)
    (background_evaluations ds) (stat_type ds).

Definition set_masks (ds : MapDataset) (safe fit : option (Map bool)) : MapDataset :=
  mkDataset (onoff ds) (counts ds) (background_ ds) (counts_off ds) (acceptance ds)
    (acceptance_off ds) safe fit (evaluators ds)
    (background_model ds) (background_cached ds) (background_parameters_cached ds)
    (background_evaluations ds) (stat_type ds).

Definition set_background_cache (ds : MapDataset) (c : option (Map Qc))
    (p : option (list fval)) (n : nat) : MapDataset :=
  mkDataset (onoff ds) (counts ds) (background_ ds) (counts_off ds) (acceptance ds)
    (acceptance_off ds) (mask_safe ds) (mask_fit ds) (evaluators ds)
    (background_model ds) c p n (stat_type ds).

(** [_geom]: the main analysis geometry ([MapDataset._geom], overridden in
    [MapDatasetOnOff._geom]). *)
Definition ref_geom (ds : MapDataset) : result Geom :=
  if onoff ds then
    match counts ds, counts_off ds, acceptance ds, acceptance_off ds with
    | Some m, _, _, _ | None, Some m, _, _ | None, None, Some m, _
    | None, None, None, Some m => Ok (geom m)
    | None, None, None, None => Raise
    end
  else
    match counts ds, background_ ds, mask_safe ds, mask_fit ds with
    | Some m, _, _, _ | None, Some m, _, _ => Ok (geom m)
    | None, None, Some m, _ | None, None, None, Some m => Ok (geom m)
    | None, None, None, None => Raise
    end.

(** [MapDatasetOnOff.alpha]: [nan_to_num(acceptance / acceptance_off)] on
    the reference geometry. *)
Definition alpha (ds : MapDataset) : result (Map Qc) :=
  match acceptance ds, acceptance_off ds with
  | Some a, Some aoff =>
      let* g := ref_geom ds in
      let* q := map_binop nan_to_num_div a aoff in
      Ok (mkMap g (data q))
  | _, _ => Raise
  end.

(** The [background] attribute; for [MapDatasetOnOff] the property
    [alpha * counts_off] ([None] when [counts_off] is [None]). *)
Definition dataset_background (ds : MapDataset) : result (option (Map Qc)) :=
  if onoff ds then
    match counts_off ds with
    | None => Ok None
    | Some off => let* a := alpha ds in let* b := map_binop Qcmult a off in Ok (Some b)
    end
  else Ok (background_ ds).

(** ** Predicted counts *)

Section Prediction.

(** [FoVBackgroundModel.evaluate_geom]: the background norm per bin for the
    given parameter values, on the given geometry. *)
Variable evaluate_geom : list fval -> Geom -> Map Qc.

(** [gammapy.stats.get_wstat_mu_bkg(n_on, n_off, alpha, mu_sig)], per bin. *)
Variable get_wstat_mu_bkg : Qc -> Qc -> Qc -> Qc -> Qc.

(** [self.evaluators[name]]: a [KeyError] for an unknown name. *)
Fixpoint lookup_evaluator (evs : list Evaluator) (n : string) : result Evaluator :=
  match evs with
  | [] => Raise
  | e :: es => if String.eqb (ev_name e) n then Ok e else lookup_evaluator es n
  end.

(** [{name: self.evaluators[name] for name in model_names}]: a dict, so a
    repeated name keeps its first position. *)
Fixpoint select_evaluators (evs : list Evaluator) (names : list string)
    (acc : list Evaluator) : result (list Evaluator) :=
  match names with
  | [] => Ok acc
  | n :: ns =>
      let* e := lookup_evaluator evs n in
      select_evaluators evs ns
        (if existsb (fun e' => String.eqb (ev_name e') n) acc then acc else acc ++ [e])
  end.

(** The loop of [npred_signal] over the evaluators. *)
Fixpoint npred_signal_loop (g : Geom) (stack : bool) (evs : list Evaluator)
    (total : Map Qc) (npred_list : list (string * Map Qc))
    : Map Qc * list (string * Map Qc) :=
  match evs with
  | [] => (total, npred_list)
  | e :: es =>
      match ev_npred e g with
      | None => npred_signal_loop g stack es total npred_list
      | Some npred =>
          if stack then npred_signal_loop g stack es (map_stack total npred None) npred_list
          else npred_signal_loop g stack es total
                 (npred_list ++ [(ev_name e, map_stack (map_from_geom g) npred None)])
      end
  end.

(** [Map.from_stack(npred_list, axis=LabelMapAxis(labels, name="models"))]:
    the label axis is appended to the geometry and is the outermost data
    dimension. *)
Definition from_stack_models (g : Geom) (l : list (string * Map Qc)) : Map Qc :=
  mkMap (g ++ [("models"%string, List.length l)]) (List.concat (map (fun p => data (snd p)) l)).

(** [MapDataset.npred_signal(model_names, stack)] *)
Definition npred_signal (ds : MapDataset) (model_names : option (list string))
    (stack : bool) : result (Map Qc) :=
  let* g := ref_geom ds in
  let* evs := match model_names with
              | None => Ok (evaluators ds)
              | Some ns => select_evaluators (evaluators ds) ns []
              end in
  let (total, npred_list) := npred_signal_loop g stack evs (map_from_geom g) [] in
  match npred_list with
  | [] => Ok total
  | _ :: _ => Ok (from_stack_models g npred_list)
  end.

(** [values == cached] elementwise, then [np.all]. *)
Fixpoint params_all_equal (c v : list fval) : bool :=
  match c, v with
  | [], [] => true
  | x :: c', y :: v' => fval_eqb x y && params_all_equal c' v'
  | _, _ => false
  end.

(** [np.all(self._background_parameters_cached == values)]: [None == array]
    is an all-False array (so [np.all] of it holds only for an empty array);
    arrays of different lengths are unequal. *)
Definition cached_equal (cached : option (list fval)) (values : list fval) : bool :=
  match cached with
  | None => match values with [] => true | _ :: _ => false end
  | Some c => params_all_equal c values
  end.

(** [MapDataset._background_parameters_changed] *)
Definition background_parameters_changed (ds : MapDataset) (values : list fval)
    : bool * MapDataset :=
  let changed := negb (cached_equal (background_parameters_cached ds) values) in
  (changed,
   if changed
   then set_background_cache ds (background_cached ds) (Some values) (background_evaluations ds)
   else ds).

(** [MapDataset.npred_background] (Cash statistic). *)
Definition npred_background_cash (ds : MapDataset)
    : result (option (Map Qc) * MapDataset) :=
  match background_model ds, background_ ds with
  | Some values, Some bkg =>
      let (changed, ds1) := background_parameters_changed ds values in
      if changed then
        let* scaled := map_binop Qcmult bkg (evaluate_geom values (geom bkg)) in
        Ok (Some scaled,
            set_background_cache ds1 (Some scaled) (background_parameters_cached ds1)
              (S (background_evaluations ds1)))
      else Ok (background_cached ds1, ds1)
  | _, _ => Ok (background_ ds, ds)
  end.

(** [MapDatasetOnOff.npred_background]:
    [alpha * get_wstat_mu_bkg(counts, counts_off, alpha, npred_signal())]. *)
Definition npred_background_onoff (ds : MapDataset)
    : result (option (Map Qc) * MapDataset) :=
  let* a := alpha ds in
  let* sig := npred_signal ds None true in
  let* g := ref_geom ds in
  match counts ds, counts_off ds with
  | Some on, Some off =>
      let n := List.length (data on) in
      if forallb (Nat.eqb n)
           [List.length (data off); List.length (data a); List.length (data sig)]
      then
        Ok (Some (mkMap g
             (map (fun '(x, (y, (al, s))) => al * get_wstat_mu_bkg x y al s)
                (combine (data on) (combine (data off) (combine (data a) (data sig)))))),
            ds)
      else Raise
  | _, _ => Raise
  end.

Definition npred_background (ds : MapDataset) : result (option (Map Qc) * MapDataset) :=
  if onoff ds then npred_background_onoff ds else npred_background_cash ds.

(** [MapDataset.npred] *)
Definition npred (ds : MapDataset) : result (Map Qc * MapDataset) :=
  let* total := npred_signal ds None true in
  let* b := dataset_background ds in
  match b with
  | None => Ok (clip_negative total, ds)
  | Some _ =>
      let* r := npred_background ds in
      match fst r with
      | Some bm => let* s := map_binop Qcplus total bm in Ok (clip_negative s, snd r)
      | None => Raise
      end
  end.

End Prediction.

(** ** The parameter comparison the spec describes

    Two parameter vectors compare equal when a cached copy exists and the
    vectors are pairwise equal finite values; NaN is a value that is equal
    to nothing, not even to NaN. *)
Definition same_parameter_values (cached : option (list fval)) (values : list fval) : Prop :=
  exists c, cached = Some c /\ Forall2 (fun x y => exists q, x = Fin q /\ y = Fin q) c values.

(** ** Stacking *)

Section Stacking.

Variable evaluate_geom : list fval -> Geom -> Map Qc.
Variable get_wstat_mu_bkg : Qc -> Qc -> Qc -> Qc -> Qc.

(** [MapDataset.stack(other)] on the roles counts, background, mask_safe and
    mask_fit.  Exposure, PSF, energy dispersion, GTI and metadata are stacked
    by statements of their own that read none of these roles, and are not
    represented.  Both datasets are returned: [other.npred_background()]
    updates the background cache of [other].  The map returned by
    [self.npred_background()] is stacked in place and becomes
    [self.background]; when a background model is attached that map is the
    cached one, so the cache holds the stacked map too. *)
(** The background block of [MapDataset.stack]: [if self.stat_type == "cash"]. *)
Definition stack_background (self other : MapDataset) : result (MapDataset * MapDataset) :=
  match stat_type self with
  | Cash =>
      let* bs := dataset_background self in
      let* bo := dataset_background other in
      match bs, bo with
      | Some _, Some _ =>
          let* r := npred_background evaluate_geom get_wstat_mu_bkg self in
          let* ro := npred_background evaluate_geom get_wstat_mu_bkg other in
          match fst r, fst ro with
          | Some b, Some ob =>
              let nb := map_stack b ob (mask_safe other) in
              let self2 := set_background (snd r) (Some nb) in
              let self3 :=
                match background_model self2 with
                | Some _ =>
                    set_background_cache self2 (Some nb)
                      (background_parameters_cached self2) (background_evaluations self2)
                | None => self2
                end in
              Ok (self3, snd ro)
          | _, _ => Raise
          end
      | _, _ => Ok (self, other)
      end
  | WStat => Ok (self, other)
  end.

Definition stacked_counts (c : option (Map Qc)) (other : MapDataset) : option (Map Qc) :=
  match c, counts other with
  | Some c, Some oc => Some (map_stack c oc (mask_safe other))
  | _, _ => c
  end.

Definition stacked_safe (s os : option (Map bool)) : option (Map bool) :=
  match s, os with
  | Some m, Some om => Some (mask_stack m om)
  | _, _ => s
  end.

(** [mask_fit]: OR when both are present, else a copy of the other's. *)
Definition stacked_fit (f of : option (Map bool)) : option (Map bool) :=
  match f, of with
  | Some m, Some om => Some (mask_stack m om)
  | None, Some om => Some om
  | _, None => f
  end.

Definition stack (self other : MapDataset) : result (MapDataset * MapDataset) :=
  let self1 := set_counts self (stacked_counts (counts self) other) in
  let* bkgs := stack_background self1 other in
  let '(self4, other1) := bkgs in
  Ok (set_masks self4 (stacked_safe (mask_safe self4) (mask_safe other))
        (stacked_fit (mask_fit self4) (mask_fit other)), other1).

(** [Map.stack] of a role that may be [None]: [other.geom] raises. *)
Definition map_stack_opt (self : Map Qc) (other : option (Map Qc))
    (weights : option (Map bool)) : result (Map Qc) :=
  match other with
  | Some o => Ok (map_stack self o weights)
  | None => Raise
  end.

Definition qc_sum (l : list Qc) : Qc := fold_right Qcplus qc0 l.

(** [MapDatasetOnOff._is_stackable] *)
Definition is_stackable (ds : MapDataset) : result bool :=
  let incomplete :=
    match acceptance_off ds, acceptance ds, counts_off ds with
    | Some _, Some _, Some _ => false
    | _, _, _ => true
    end in
  match mask_safe ds with
  | None => Raise
  | Some m =>
      let unmasked := existsb (fun b => b) (data m) in
      Ok (negb (incomplete && unmasked))
  end.

(** [acceptance_off.data[is_zero] = total_acceptance.data[is_zero] / average_alpha] *)
Definition fill_zero_off (acc_off total_acc total_off : list Qc) (average_alpha : Qc) : list Qc :=
  map (fun '(a, (t, o)) => if qc_eqb o qc0 then t / average_alpha else a)
    (combine acc_off (combine total_acc total_off)).

(** [MapDatasetOnOff.stack(other)].  A bin where numpy divides by zero
    ([inf] or NaN in [acceptance_off] or [average_alpha]) holds 0 here, the
    [Qc] quotient by zero; the properties below use only the paths of this
    function that raise. *)
Definition stack_onoff (self other : MapDataset) : result (MapDataset * MapDataset) :=
  if negb (onoff other) then Raise else
  let* s1 := is_stackable self in
  let* s2 := is_stackable other in
  if negb (s1 && s2) then Raise else
  match counts self with
  | None => Raise
  | Some c =>
      let g := geom c in
      let* total_acceptance := map_stack_opt (map_from_geom g) (acceptance self) None in
      let* total_acceptance :=
        map_stack_opt total_acceptance (acceptance other) (mask_safe other) in
      let* tot_self :=
        match counts_off self with
        | Some off =>
            let* a := alpha self in
            let* aoff := map_binop Qcmult a off in
            Ok (map_stack (map_from_geom g) off None, map_stack (map_from_geom g) aoff None)
        | None => Ok (map_from_geom g, map_from_geom g)
        end in
      let* tot :=
        match counts_off other with
        | Some off =>
            let* a := alpha other in
            let* aoff := map_binop Qcmult a off in
            Ok (map_stack (fst tot_self) off (mask_safe other),
                map_stack (snd tot_self) aoff (mask_safe other))
        | None => Ok tot_self
        end in
      let '(total_off, total_alpha) := tot in
      let* prod := map_binop Qcmult total_acceptance total_off in
      let* acceptance_off := map_binop Qcdiv prod total_alpha in
      let average_alpha := qc_sum (data total_alpha) / qc_sum (data total_off) in
      let acceptance_off :=
        mkMap (geom acceptance_off)
          (fill_zero_off (data acceptance_off) (data total_acceptance) (data total_off)
             average_alpha) in
      match acceptance self with
      | None => Raise
      | Some acc =>
          let self1 :=
            set_onoff_maps self (Some total_off)
              (Some (mkMap (geom acc) (data total_acceptance))) (Some acceptance_off) in
          stack self1 other
      end
  end.

(** Stacking a sequence of datasets in place into [acc], in order. *)
Definition stack_seq (acc : MapDataset) (l : list MapDataset) : result MapDataset :=
  fold_left (fun r d => let* a := r in let* p := stack a d in Ok (fst p)) l (Ok acc).

End Stacking.

(** [MapDataset.from_geoms(geom)]: zero counts and background, an all-False
    safe mask, no fit mask, no models. *)
Definition from_geoms (g : Geom) : MapDataset :=
  mkDataset false (Some (map_from_geom g)) (Some (map_from_geom g)) None None None
    (Some (mask_from_geom g)) None [] None None None 0 Cash.

(** Modelled from the spec: [Dataset.mask] (defined outside the sources):
    [mask_safe AND mask_fit] when both are present, else whichever is
    present, else absent. *)
Definition dataset_mask (ds : MapDataset) : option (Map bool) :=
  match mask_safe ds, mask_fit ds with
  | Some s, Some f => Some (mkMap (geom s) (map (fun p => fst p && snd p) (combine (data s) (data f))))
  | Some s, None => Some s
  | None, f => f
  end.

(** The total counts inside the dataset mask: [counts.data[mask.data].sum()]. *)
Definition masked_total_counts (ds : MapDataset) : Qc :=
  match counts ds with
  | None => qc0
  | Some c =>
      match dataset_mask ds with
      | None => qc_sum (data c)
      | Some m => qc_sum (map (fun p => fst p * b2qc (snd p)) (combine (data c) (data m)))
      end
  end.

(** The roles stacking combines. *)
Definition roles_of (ds : MapDataset) : option (Map Qc) * option (Map bool) * option (Map bool) :=
  (counts ds, mask_safe ds, mask_fit ds).

Definition roles_step (r : option (Map Qc) * option (Map bool) * option (Map bool))
    (d : MapDataset) : option (Map Qc) * option (Map bool) * option (Map bool) :=
  let '(c, s, f) := r in
  (stacked_counts c d, stacked_safe s (mask_safe d), stacked_fit f (mask_fit d)).

(** Maps on a common geometry. *)
Definition on_geom {A : Type} (g : Geom) (m : Map A) : Prop :=
  geom m = g /\ List.length (data m) = geom_size g.

Definition opt_on_geom {A : Type} (g : Geom) (o : option (Map A)) : Prop :=
  match o with None => True | Some m => on_geom g m end.

Definition dataset_on_geom (g : Geom) (ds : MapDataset) : Prop :=
  opt_on_geom g (counts ds) /\ opt_on_geom g (mask_safe ds) /\ opt_on_geom g (mask_fit ds).

(** ** Construction *)

(** The objects passed as [psf] and [edisp] to the constructor.  A
    [PSFMap] records whether it has a single spatial bin and whether its
    energy axis is [energy_true]; [FalsyObj] is an object of another type
    whose truth value is [False]; the other objects are true, Python's
    default. *)
Inductive IrfObject :=
  | PSFMapObj (single_spatial_bin energy_true : bool)
  | EDispMapObj | EDispKernelMapObj | HDULocationObj | FalsyObj | OtherObj.

(** A model of the [models] argument: a sky model (evaluated through its
    evaluator) or a [FoVBackgroundModel] with its parameter values. *)
Inductive Model := SkyModel (e : Evaluator) | FoVModel (values : list fval).

(** [bool(obj)] for the [psf] and [edisp] arguments; [None] is false. *)
Definition irf_truthy (o : option IrfObject) : bool :=
  match o with
  | None | Some FalsyObj => false
  | Some _ => true
  end.

(** [not (psf and not isinstance(psf, (PSFMap, HDULocation)))]. *)
Definition psf_type_ok (psf : option IrfObject) : bool :=
  negb (irf_truthy psf &&
        negb (match psf with Some (PSFMapObj _ _) | Some HDULocationObj => true | _ => false end)).

(** [not (edisp and not isinstance(edisp, (EDispMap, EDispKernelMap, HDULocation)))]. *)
Definition edisp_type_ok (edisp : option IrfObject) : bool :=
  negb (irf_truthy edisp &&
        negb (match edisp with
              | Some EDispMapObj | Some EDispKernelMapObj | Some HDULocationObj => true
              | _ => false
              end)).

(** The [models] setter: one evaluator per model that is not a
    [FoVBackgroundModel]; the background model is the FoV one. *)
Fixpoint model_evaluators (models : list Model) : list Evaluator :=
  match models with
  | [] => []
  | SkyModel e :: ms => e :: model_evaluators ms
  | FoVModel _ :: ms => model_evaluators ms
  end.

Fixpoint fov_background_model (models : list Model) : option (list fval) :=
  match models with
  | [] => None
  | FoVModel v :: _ => Some v
  | SkyModel _ :: ms => fov_background_model ms
  end.

Section Construction.

(** [HDULocation.load()] of a psf given by its file location, which the
    [psf] attribute performs when it is read. *)
Variable load_psf : result IrfObject.

(** [not map_ref.geom.is_region] and [psf.get_psf_kernel(position, geom,
    ...)] on the geometry of the reference map. *)
Variable get_psf_kernel : IrfObject -> Geom -> result unit.

(** [MapDataset._psf_kernel]; only whether it raises is kept. *)
Definition psf_kernel (psf : option IrfObject) (counts exposure : option (Map Qc)) : result unit :=
  let* psf := match psf with
              | Some HDULocationObj => let* p := load_psf in Ok (Some p)
              | _ => Ok psf
              end in
  match psf with
  | Some (PSFMapObj true energy_true as p) =>
      match (if energy_true then exposure else counts) with
      | Some m => get_psf_kernel p (geom m)
      | None => Ok tt
      end
  | _ => Ok tt
  end.

(** [MapDataset.__init__]: stores the given maps after checking the types of
    [psf] and [edisp], then runs the [models] setter, which computes
    [_psf_kernel] when the selected models are not empty.  The models given
    are taken as those [select(datasets_names=self.name)] keeps.  The
    exposure is not a field of the [MapDataset] record: it only enters
    [_psf_kernel]. *)
Definition MapDataset_init (models : option (list Model))
    (counts exposure background : option (Map Qc))
    (psf edisp : option IrfObject) (mask_safe mask_fit : option (Map bool)) : result MapDataset :=
  if negb (psf_type_ok psf) then Raise
  else if negb (edisp_type_ok edisp) then Raise
  else
    let ms := match models with None => [] | Some ms => ms end in
    let* _ := match ms with [] => Ok tt | _ :: _ => psf_kernel psf counts exposure end in
    Ok (mkDataset false counts background None None None mask_safe mask_fit
          (model_evaluators ms) (fov_background_model ms) None None 0 Cash).

End Construction.

(** ** Serialization *)

(** Element types of a map's data array. *)
Inductive DType := DBool | DInt | DFloat.

(** A map as read and written: geometry, unit, element type and data (a
    boolean element is 0 or 1). *)
Record NDMap := mkNDMap { nd_geom : Geom; nd_unit : string; nd_dtype : DType; nd_data : list Qc }.

(** The role maps a dataset writes and reads; [io_onoff] tells
    [MapDatasetOnOff] from [MapDataset]. *)
Record DatasetIO := mkDatasetIO {
  io_onoff : bool;
  io_counts : option NDMap;
  io_exposure : option NDMap;
  io_background : option NDMap;
  io_counts_off : option NDMap;
  io_acceptance : option NDMap;
  io_acceptance_off : option NDMap;
  io_mask_safe : option NDMap;
  io_mask_fit : option NDMap
}.

(** An HDU of a written map: the image HDU holding the map, or the
    [*_BANDS] table HDU describing its non-spatial axes. *)
Inductive HDU := ImageHDU (m : NDMap) | BandsHDU (axes : Geom).

(** An HDU list: named HDUs in order. *)
Definition HDUList := list (string * HDU).

(** Modelled from the spec: [Map.to_hdulist] stores a boolean mask as an
    integer map; the other maps are stored as they are. *)
Definition map_to_hdu (m : NDMap) : NDMap :=
  match nd_dtype m with
  | DBool => mkNDMap (nd_geom m) (nd_unit m) DInt (nd_data m)
  | _ => m
  end.

(** Modelled from the maps package: [m.to_hdulist(hdu=name)] without its
    primary HDU: the image HDU [name], followed by the [name_BANDS] HDU only
    when the geometry has non-spatial axes. *)
Definition map_hdus (name : string) (m : NDMap) : HDUList :=
  (name, ImageHDU (map_to_hdu m))
  :: match nd_geom m with
     | [] => []
     | axes => [((name ++ "_BANDS")%string, BandsHDU axes)]
     end.

(** [m.data.astype(bool)]. *)
Definition astype_bool (m : NDMap) : NDMap :=
  mkNDMap (nd_geom m) (nd_unit m) DBool
    (map (fun x => if qc_eqb x qc0 then qc0 else qc1) (nd_data m)).

(** Whether an HDU name contains [mask] (HDU names are upper case). *)
Definition is_mask_hdu (name : string) : bool :=
  match String.index 0 "MASK" name with Some _ => true | None => false end.

(** Modelled from the spec and the maps package: [Map.from_hdulist] reads
    the stored map back, and [WcsNDMap.from_hdu] casts the data of an HDU
    whose name contains [mask] to bool. *)
Definition map_from_hdu (name : string) (h : NDMap) : NDMap :=
  if is_mask_hdu name then astype_bool h else h.

(** [hdulist += m.to_hdulist(hdu=name)[exclude_primary]] when [m] is not
    [None]. *)
Definition hdu_opt (name : string) (m : option NDMap) : HDUList :=
  match m with
  | Some m => map_hdus name m
  | None => []
  end.

(** [name in hdulist] and [hdulist[name]]. *)
Fixpoint hdu_lookup (name : string) (l : HDUList) : option HDU :=
  match l with
  | [] => None
  | (n, h) :: l' => if String.eqb n name then Some h else hdu_lookup name l'
  end.

(** [del hdulist[name]]: a [KeyError] when there is no such HDU. *)
Fixpoint hdu_delete (name : string) (l : HDUList) : result HDUList :=
  match l with
  | [] => Raise
  | (n, h) :: l' =>
      if String.eqb n name then Ok l'
      else let* l'' := hdu_delete name l' in Ok ((n, h) :: l'')
  end.

(** [Map.from_hdulist(hdulist, hdu=name)] under [if name in hdulist]: no
    map without the HDU; a bands table does not read as a map. *)
Definition read_map (name : string) (l : HDUList) : result (option NDMap) :=
  match hdu_lookup name l with
  | None => Ok None
  | Some (ImageHDU h) => Ok (Some (map_from_hdu name h))
  | Some (BandsHDU _) => Raise
  end.

(** The HDUs of the role maps written by [MapDataset.to_hdulist], with the
    background given. *)
Definition role_hdus (ds : DatasetIO) (background : option NDMap) : HDUList :=
  hdu_opt "COUNTS" (io_counts ds) ++ hdu_opt "EXPOSURE" (io_exposure ds)
  ++ hdu_opt "BACKGROUND" background
  ++ hdu_opt "MASK_SAFE" (io_mask_safe ds) ++ hdu_opt "MASK_FIT" (io_mask_fit ds).

(** [MapDatasetOnOff._geom]: the geometry of counts, else counts_off, else
    acceptance, else acceptance_off ([None] stands for the [ValueError]). *)
Definition io_onoff_geom (ds : DatasetIO) : option Geom :=
  match io_counts ds, io_counts_off ds, io_acceptance ds, io_acceptance_off ds with
  | Some m, _, _, _ | None, Some m, _, _ | None, None, Some m, _
  | None, None, None, Some m => Some (nd_geom m)
  | None, None, None, None => None
  end.

(** [MapDatasetOnOff.background] as written: [alpha * counts_off] on the
    reference geometry, [None] without [counts_off]; computing [alpha] needs
    both acceptances. *)
Definition io_onoff_background (ds : DatasetIO) : result (option NDMap) :=
  match io_counts_off ds with
  | None => Ok None
  | Some off =>
      match io_acceptance ds, io_acceptance_off ds, io_onoff_geom ds with
      | Some a, Some aoff, Some g =>
          Ok (Some (mkNDMap g (nd_unit off) DFloat
            (map (fun '(x, y, n) => nan_to_num_div x y * n)
               (combine (combine (nd_data a) (nd_data aoff)) (nd_data off)))))
      | _, _, _ => Raise
      end
  end.

(** [MapDataset.to_hdulist] and [MapDatasetOnOff.to_hdulist]. *)
Definition to_hdulist (ds : DatasetIO) : result HDUList :=
  if io_onoff ds then
    let* bkg := io_onoff_background ds in
    let* l := hdu_delete "BACKGROUND" (role_hdus ds bkg) in
    let* l := hdu_delete "BACKGROUND_BANDS" l in
    Ok (l ++ hdu_opt "COUNTS_OFF" (io_counts_off ds)
          ++ hdu_opt "ACCEPTANCE" (io_acceptance ds)
          ++ hdu_opt "ACCEPTANCE_OFF" (io_acceptance_off ds))
  else Ok (role_hdus ds (io_background ds)).

(** The exposure check of [MapDataset.from_hdulist]: [geom.axes[0]] is an
    [IndexError] for a map without non-spatial axes, and the renaming of an
    [energy] axis to [energy_true] an [AttributeError], [MapAxis.name]
    having no setter. *)
Definition rename_energy_axis (m : NDMap) : result NDMap :=
  match nd_geom m with
  | (n, _) :: _ => if String.eqb n "energy" then Raise else Ok m
  | [] => Raise
  end.

(** [MapDataset.from_hdulist]. *)
Definition MapDataset_from_hdulist (l : HDUList) : result DatasetIO :=
  let* counts := read_map "COUNTS" l in
  let* exposure := read_map "EXPOSURE" l in
  let* exposure :=
    match exposure with
    | Some e => let* e := rename_energy_axis e in Ok (Some e)
    | None => Ok None
    end in
  let* background := read_map "BACKGROUND" l in
  let* mask_safe := read_map "MASK_SAFE" l in
  let* mask_fit := read_map "MASK_FIT" l in
  Ok (mkDatasetIO false counts exposure background None None None
        (option_map astype_bool mask_safe) (option_map astype_bool mask_fit)).

(** [MapDatasetOnOff.from_hdulist]. *)
Definition MapDatasetOnOff_from_hdulist (l : HDUList) : result DatasetIO :=
  let* counts := read_map "COUNTS" l in
  let* counts_off := read_map "COUNTS_OFF" l in
  let* acceptance := read_map "ACCEPTANCE" l in
  let* acceptance_off := read_map "ACCEPTANCE_OFF" l in
  let* exposure := read_map "EXPOSURE" l in
  let* mask_safe := read_map "MASK_SAFE" l in
  let* mask_fit := read_map "MASK_FIT" l in
  Ok (mkDatasetIO true counts exposure None counts_off acceptance acceptance_off
        mask_safe mask_fit).

(** [cls.read(filename)] after [dataset.write(filename)]: the HDU list goes
    to the file and back unchanged, and the class's [from_hdulist] reads it. *)
Definition write_read (ds : DatasetIO) : result DatasetIO :=
  let* l := to_hdulist ds in
  if io_onoff ds then MapDatasetOnOff_from_hdulist l else MapDataset_from_hdulist l.

(** ** The PSF map *)

(** numpy's [RandomState.uniform(low=0.0, high=1.0, size)]: each value is
    [low + (high - low) * u] for a draw [u] in [0, 1). *)
Definition uniform (low high u : Qc) : Qc := low + (high - low) * u.

(** The position angles of [PSFMap.sample_coord], in degrees:
    [random_state.uniform(360, size=len(map_coord.lon))], one draw per event;
    the positional 360 is [low]. *)
Definition sample_position_angles (draws : list Qc) : list Qc :=
  map (fun u => uniform (Q2Qc 360) qc1 u) draws.

(** Python's [min(a, b)]. *)
Definition py_min (a b : Qc) : Qc := if qc_ltb b a then b else a.

(** numpy's [np.max] and [np.min] of a non-empty array. *)
Definition np_max (x : Qc) (xs : list Qc) : Qc :=
  fold_left (fun m y => if qc_ltb m y then y else m) xs x.

Definition np_min (x : Qc) (xs : list Qc) : Qc :=
  fold_left (fun m y => if qc_ltb y m then y else m) xs x.

(** The [max_radius] of [PSFMap.get_psf_kernel]: the rad-axis centers are
    [rad0 :: rads], the widths of the target geometry [w0 :: ws]. *)
Definition kernel_max_radius (max_radius : option Qc) (rad0 : Qc) (rads : list Qc)
    (w0 : Qc) (ws : list Qc) : Qc :=
  match max_radius with
  | Some r => r
  | None => py_min (np_max rad0 rads) (np_min w0 ws / Q2Qc 2)
  end.

(** Modelled from the spec: [Geom.to_odd_npix(max_radius)], the odd-pixel
    adjustment: [npix = round_up_to_odd(2 * max_radius / binsz)] with
    [round_up_to_odd(f) = ceil(f) // 2 * 2 + 1]. *)
Definition to_odd_npix (binsz max_radius : Qc) : Z :=
  (Qceiling (this (Q2Qc 2 * max_radius / binsz)) / 2) * 2 + 1.

(** The kernel geometry of [PSFMap.get_psf_kernel]: the radius used and the
    number of pixels of [geom.to_odd_npix(max_radius=max_radius)]. *)
Definition psf_kernel_geom (max_radius : option Qc) (rad0 : Qc) (rads : list Qc)
    (w0 : Qc) (ws : list Qc) (binsz : Qc) : Qc * Z :=
  let r := kernel_max_radius max_radius rad0 rads w0 ws in
  (r, to_odd_npix binsz r).

(** ** Derived datasets *)

(** An acceptance given to [from_map_dataset]: a map or a scalar. *)
Inductive Acceptance := AccMap (m : Map Qc) | AccScalar (q : Qc).

(** [a / b] of maps and scalars, broadcasting a scalar over a map.  A
    division by zero gives 0 here (numpy gives inf or NaN); the properties
    below divide by non-zero values only. *)
Definition acc_div (a b : Acceptance) : result Acceptance :=
  match a, b with
  | AccMap x, AccMap y => let* z := map_binop Qcdiv x y in Ok (AccMap z)
  | AccMap x, AccScalar q => Ok (AccMap (mkMap (geom x) (map (fun v => v / q) (data x))))
  | AccScalar p, AccMap y => Ok (AccMap (mkMap (geom y) (map (fun v => p / v) (data y))))
  | AccScalar p, AccScalar q => Ok (AccScalar (p / q))
  end.

(** [m / a] for a map [m]. *)
Definition map_div_acc (m : Map Qc) (a : Acceptance) : result (Map Qc) :=
  match a with
  | AccMap y => map_binop Qcdiv m y
  | AccScalar q => Ok (mkMap (geom m) (map (fun v => v / q) (data m)))
  end.

(** [if np.isscalar(acc): acc = Map.from_geom(dataset._geom, data=acc)] *)
Definition acc_to_map (ds : MapDataset) (a : Acceptance) : result (Map Qc) :=
  match a with
  | AccMap m => Ok m
  | AccScalar q => let* g := ref_geom ds in Ok (mkMap g (repeat q (geom_size g)))
  end.

(** [MapDatasetOnOff.to_map_dataset()]: the background is
    [counts_off * alpha]; models are not passed on. *)
Definition to_map_dataset (ds : MapDataset) : result MapDataset :=
  let* bkg :=
    match counts_off ds with
    | Some off => let* a := alpha ds in let* b := map_binop Qcmult off a in Ok (Some b)
    | None => Ok None
    end in
  Ok (mkDataset false (counts ds) bkg None None None (mask_safe ds) (mask_fit ds)
        [] None None None 0 Cash).

(** [MapDataset._energy_range(mask_map)] on one pixel: the values of the mask
    along the energy axis, whose bins have the edges [edges].  [None] is
    NaN. *)

(** [np.argmax] of a boolean array: the index of the first [True], 0 when
    there is none. *)
Fixpoint argmax_bool (l : list bool) : nat :=
  match l with
  | [] => 0
  | true :: _ => 0
  | false :: l' => S (argmax_bool l')
  end.

(** [energy.value[idx]] with [idx = mask.argmax(e_i)], and
    [energy.value[::-1][idx]] with [idx] the argmax of the flipped mask; NaN
    where [~mask.any(e_i)]. *)
Definition energy_range_pixel (edges : list Qc) (col : list bool) : option Qc * option Qc :=
  if existsb (fun b => b) col
  then (Some (nth (argmax_bool col) edges qc0),
        Some (nth (argmax_bool (rev col)) (rev edges) qc0))
  else (None, None).

(** [MapDataset._energy_range(mask_map)]: the pixels of the geometry without
    its energy axis, each with its mask values along the energy axis
    ([npix] pixels when there is no mask). *)
Definition energy_range (edges : list Qc) (mask : option (list (list bool))) (npix : nat)
    : list (option Qc * option Qc) :=
  match mask with
  | Some cols =>
      if existsb (existsb (fun b => b)) cols
      then map (energy_range_pixel edges) cols
      else repeat (None, None) (List.length cols)
  | None => repeat (Some (nth 0 edges qc0), Some (last edges qc0)) npix
  end.

Section Derived.

Variable evaluate_geom : list fval -> Geom -> Map Qc.
Variable get_wstat_mu_bkg : Qc -> Qc -> Qc -> Qc -> Qc.

(** [MapDatasetOnOff.from_map_dataset(dataset, acceptance, acceptance_off,
    counts_off)].  Without [counts_off] and with a background, the off
    counts are [dataset.npred_background() / alpha]; that call updates the
    background cache of [dataset], returned second. *)
Definition from_map_dataset (ds : MapDataset) (acceptance acceptance_off : Acceptance)
    (counts_off : option (Map Qc)) : result (MapDataset * MapDataset) :=
  let* bkg := dataset_background ds in
  let* p :=
    match counts_off, bkg with
    | None, Some _ =>
        let* a := acc_div acceptance acceptance_off in
        let* r := npred_background evaluate_geom get_wstat_mu_bkg ds in
        match fst r with
        | Some b => let* off := map_div_acc b a in Ok (Some off, snd r)
        | None => Raise
        end
    | _, _ => Ok (counts_off, ds)
    end in
  let (off, ds1) := p in
  let* acc := acc_to_map ds1 acceptance in
  let* acc_off := acc_to_map ds1 acceptance_off in
  Ok (mkDataset true (counts ds1) None off (Some acc) (Some acc_off)
        (mask_safe ds1) (mask_fit ds1) (evaluators ds1) (background_model ds1)
        None None 0 WStat, ds1).

(** [MapDatasetOnOff.npred_off()]: [npred_background() / alpha]. *)
Definition npred_off (ds : MapDataset) : result (Map Qc) :=
  let* r := npred_background evaluate_geom get_wstat_mu_bkg ds in
  match fst r with
  | Some b => let* a := alpha ds in map_binop Qcdiv b a
  | None => Raise
  end.

(** [MapDataset._to_asimov_dataset()] and its on/off override: the counts
    are [npred()] ([nan_to_num] has nothing to replace in rationals); the
    new dataset is built by the constructor, so its background cache is
    empty and its statistic is the class default; it shares the
    evaluators. *)
Definition to_asimov_dataset (ds : MapDataset) : result MapDataset :=
  let* r := npred evaluate_geom get_wstat_mu_bkg ds in
  let (m, ds1) := r in
  if onoff ds1 then
    Ok (mkDataset true (Some m) None (counts_off ds1) (acceptance ds1) (acceptance_off ds1)
          (mask_safe ds1) (mask_fit ds1) (evaluators ds1) (background_model ds1)
          None None 0 WStat)
  else
    Ok (mkDataset false (Some m) (background_ ds1) None None None
          (mask_safe ds1) (mask_fit ds1) (evaluators ds1) (background_model ds1)
          None None 0 Cash).

(** [MapDatasetOnOff.from_geoms(geom)]: [MapDataset.from_geoms] turned into
    an on/off dataset with zero [counts_off], [acceptance] and
    [acceptance_off]. *)
Definition onoff_from_geoms (g : Geom) : result MapDataset :=
  let* p := from_map_dataset (from_geoms g) (AccMap (map_from_geom g))
              (AccMap (map_from_geom g)) (Some (map_from_geom g)) in
  Ok (fst p).

(** [MapDataset.to_masked()]: [self.__class__.from_geoms] on the geometries of [self]
    stacked with [self]. *)
Definition to_masked (ds : MapDataset) : result MapDataset :=
  let* g := ref_geom ds in
  if onoff ds then
    let* empty := onoff_from_geoms g in
    let* p := stack_onoff evaluate_geom get_wstat_mu_bkg empty ds in
    Ok (fst p)
  else
    let* p := stack evaluate_geom get_wstat_mu_bkg (from_geoms g) ds in
    Ok (fst p).

End Derived.

(** ** Helpers for the properties *)

(** The models that contribute to [npred_signal] on geometry [g], with their
    predicted counts, in the evaluators' order. *)
Fixpoint contributing (g : Geom) (evs : list Evaluator) : list (string * Map Qc) :=
  match evs with
  | [] => []
  | e :: es =>
      match ev_npred e g with
      | Some m => (ev_name e, m) :: contributing g es
      | None => contributing g es
      end
  end.

(** The acceptance ratio [acceptance / acceptance_off] per bin. *)
Definition ratios (A O : list Qc) : list Qc := map (fun p => fst p / snd p) (combine A O).

(** ** Concrete inputs *)

Definition qc (z : Z) : Qc := Q2Qc (inject_Z z).

Definition geom_ex : Geom := [("energy"%string, 2%nat)].

(** A background model whose norm is its first parameter (1 when that is
    NaN), and a WStat estimator returning [n_on]. *)
Definition norm_model (vals : list fval) (g : Geom) : Map Qc :=
  mkMap g (repeat (match vals with Fin q :: _ => q | _ => qc1 end) (geom_size g)).

Definition wstat_ex (n_on n_off a mu_sig : Qc) : Qc := n_on.

Definition point_source : Evaluator :=
  mkEvaluator "source"%string (fun g => Some (mkMap g [qc 1; qc (-3)])).

Definition far_source : Evaluator :=
  mkEvaluator "far"%string (fun _ => None).

(** A Cash dataset with counts, a background, one source and a background
    model whose parameters hold a NaN, already cached. *)
Definition cash_ex : MapDataset :=
  mkDataset false (Some (mkMap geom_ex [qc 4; qc 0])) (Some (mkMap geom_ex [qc 2; qc 1]))
    None None None (Some (mkMap geom_ex [true; true])) None
    [point_source] (Some [Fin (qc 1); NaN]) None (Some [Fin (qc 1); NaN]) 0 Cash.

(** A dataset whose only model does not contribute. *)
Definition silent_ex : MapDataset :=
  mkDataset false (Some (mkMap geom_ex [qc 4; qc 0])) None
    None None None None None [far_source] None None None 0 Cash.

(** Three Cash datasets on [geom_ex] with different safe masks. *)
Definition stack_a : MapDataset :=
  mkDataset false (Some (mkMap geom_ex [qc 3; qc 5])) (Some (mkMap geom_ex [qc 1; qc 1]))
    None None None (Some (mkMap geom_ex [true; false])) None [] None None None 0 Cash.

Definition stack_b : MapDataset :=
  mkDataset false (Some (mkMap geom_ex [qc 2; qc 2])) None
    None None None (Some (mkMap geom_ex [false; true])) (Some (mkMap geom_ex [true; true]))
    [] None None None 0 Cash.

Definition stack_c : MapDataset :=
  mkDataset false (Some (mkMap geom_ex [qc 7; qc 1])) None
    None None None (Some (mkMap geom_ex [true; true])) None [] None None None 0 Cash.

(** An on/off dataset without off counts or acceptances whose safe mask
    excludes every bin. *)
Definition onoff_masked_incomplete : MapDataset :=
  mkDataset true (Some (mkMap geom_ex [qc 1; qc 2])) None None None None
    (Some (mkMap geom_ex [false; false])) None [] None None None 0 WStat.

(** A complete on/off dataset with alpha 1/2. *)
Definition onoff_complete : MapDataset :=
  mkDataset true (Some (mkMap geom_ex [qc 3; qc 4])) None
    (Some (mkMap geom_ex [qc 6; qc 8])) (Some (mkMap geom_ex [qc 1; qc 1]))
    (Some (mkMap geom_ex [qc 2; qc 2]))
    (Some (mkMap geom_ex [true; true])) None [] None None None 0 WStat.

(** A complete on/off dataset to write, with a boolean safe mask. *)
Definition onoff_io_ex : DatasetIO :=
  mkDatasetIO true
    (Some (mkNDMap geom_ex "" DInt [qc 3; qc 4])) None None
    (Some (mkNDMap geom_ex "" DInt [qc 6; qc 8]))
    (Some (mkNDMap geom_ex "" DFloat [qc 1; qc 1]))
    (Some (mkNDMap geom_ex "" DFloat [qc 2; qc 2]))
    (Some (mkNDMap geom_ex "" DBool [qc 1; qc 0])) None.

(** A Cash dataset with counts and a background and no safe mask. *)
Definition cash_unmasked : MapDataset :=
  mkDataset false (Some (mkMap geom_ex [qc 3; qc 5])) (Some (mkMap geom_ex [qc 1; qc 1]))
    None None None None None [] None None None 0 Cash.

(** A second contributing source. *)
Definition second_source : Evaluator :=
  mkEvaluator "second"%string (fun g => Some (mkMap g [qc 2; qc 5])).

(** A Cash dataset with one source whose prediction has a negative bin. *)
Definition asimov_ex : MapDataset :=
  mkDataset false (Some (mkMap geom_ex [qc 3; qc 5])) (Some (mkMap geom_ex [qc 1; qc 1]))
    None None None (Some (mkMap geom_ex [true; false])) None [point_source] None None None 0 Cash.

(** A dataset with two contributing sources and a silent one. *)
Definition two_sources_ex : MapDataset :=
  mkDataset false (Some (mkMap geom_ex [qc 3; qc 5])) None
    None None None None None [point_source; far_source; second_source] None None None 0 Cash.

(** The geometry of an exposure: two bins of true energy. *)
Definition geom_true_ex : Geom := [("energy_true"%string, 2%nat)].

(** A [MapDataset] to write, with an exposure and a boolean safe mask. *)
Definition mapdataset_io_ex : DatasetIO :=
  mkDatasetIO false
    (Some (mkNDMap geom_ex "" DInt [qc 3; qc 4]))
    (Some (mkNDMap geom_true_ex "m2 s" DFloat [qc 10; qc 20]))
    (Some (mkNDMap geom_ex "" DFloat [qc 1; qc 1]))
    None None None
    (Some (mkNDMap geom_ex "" DBool [qc 1; qc 0])) None.

(** An on/off dataset to write, without off counts. *)
Definition onoff_io_without_off : DatasetIO :=
  mkDatasetIO true
    (Some (mkNDMap geom_ex "" DInt [qc 3; qc 4])) None None None
    (Some (mkNDMap geom_ex "" DFloat [qc 1; qc 1]))
    (Some (mkNDMap geom_ex "" DFloat [qc 2; qc 2])) None None.

(** A [MapDataset] to write whose exposure has a reconstructed-energy axis. *)
Definition mapdataset_io_energy_exposure : DatasetIO :=
  mkDatasetIO false
    (Some (mkNDMap geom_ex "" DInt [qc 3; qc 4]))
    (Some (mkNDMap geom_ex "m2 s" DFloat [qc 10; qc 20])) None
    None None None None None.

(** A complete on/off dataset of images, without non-spatial axes. *)
Definition onoff_io_image : DatasetIO :=
  mkDatasetIO true
    (Some (mkNDMap [] "" DInt [qc 3])) None None
    (Some (mkNDMap [] "" DInt [qc 6]))
    (Some (mkNDMap [] "" DFloat [qc 1]))
    (Some (mkNDMap [] "" DFloat [qc 2])) None None.

(** Energy edges of three bins. *)
Definition edges_ex : list Qc := [qc 1; qc 2; qc 3; qc 4].

(** * Properties *)

(** ** Basic facts *)

Lemma qc_eqb_iff (a b : Qc) : qc_eqb a b = true <-> a = b.
Proof.
  unfold qc_eqb; rewrite Qeq_bool_iff; split.
  - apply Qc_is_canon.
  - intros ->; reflexivity.
Qed.

Lemma fval_eqb_iff (x y : fval) : fval_eqb x y = true <-> exists q, x = Fin q /\ y = Fin q.
Proof.
  destruct x as [a|], y as [b|]; simpl; split.
  - intros H; apply qc_eqb_iff in H; subst; eauto.
  - intros (q & Hx & Hy); inversion Hx; inversion Hy; subst; apply qc_eqb_iff; reflexivity.
  - discriminate.
  - intros (q & _ & Hy); discriminate.
  - discriminate.
  - intros (q & Hx & _); discriminate.
  - discriminate.
  - intros (q & Hx & _); discriminate.
Qed.

Lemma params_all_equal_iff (c v : list fval) :
  params_all_equal c v = true <-> Forall2 (fun x y => exists q, x = Fin q /\ y = Fin q) c v.
Proof.
  revert v; induction c as [|x c IH]; intros [|y v]; simpl; split; intros H.
  - constructor.
  - reflexivity.
  - discriminate.
  - inversion H.
  - discriminate.
  - inversion H.
  - apply andb_true_iff in H as [H1 H2].
    constructor; [apply fval_eqb_iff; exact H1 | apply IH; exact H2].
  - inversion H; subst; apply andb_true_iff; split;
      [apply fval_eqb_iff; assumption | apply IH; assumption].
Qed.

Lemma cached_equal_iff (cached : option (list fval)) (values : list fval) :
  values <> [] ->
  cached_equal cached values = true <-> same_parameter_values cached values.
Proof.
  intros Hne; unfold same_parameter_values; destruct cached as [c|]; simpl.
  - rewrite params_all_equal_iff; split.
    + intros H; exists c; auto.
    + intros (c' & Hc & H); inversion Hc; subst; exact H.
  - destruct values as [|v vs]; [contradiction|]; split.
    + discriminate.
    + intros (c' & Hc & _); discriminate.
Qed.

Lemma nan_never_same (cached : option (list fval)) (values : list fval) :
  In NaN values -> ~ same_parameter_values cached values.
Proof.
  intros Hin (c & _ & H).
  induction H as [|x y c v Hxy _ IH]; [contradiction|].
  destruct Hin as [Hn|Hin]; [subst y|exact (IH Hin)].
  destruct Hxy as (q & _ & Hy); discriminate.
Qed.

(** ** Background caching of Cash datasets *)

(** C4: for a Cash dataset with an attached [FoVBackgroundModel],
    [npred_background()] re-evaluates the scaled background (one more call of
    [evaluate_geom]) exactly when the current parameter values differ from
    the cached copy, the comparison being elementwise with NaN equal to
    nothing; so a parameter vector holding a NaN always triggers the
    re-evaluation, even against an identical cached vector. *)
Theorem npred_background_reevaluation
    (evaluate_geom : list fval -> Geom -> Map Qc)
    (get_wstat_mu_bkg : Qc -> Qc -> Qc -> Qc -> Qc)
    (ds : MapDataset) (values : list fval) (bkg : Map Qc)
    (r : option (Map Qc)) (ds1 : MapDataset) :
  onoff ds = false ->
  background_model ds = Some values ->
  values <> [] ->
  background_ ds = Some bkg ->
  npred_background evaluate_geom get_wstat_mu_bkg ds = Ok (r, ds1) ->
  (background_evaluations ds1 = S (background_evaluations ds)
     <-> ~ same_parameter_values (background_parameters_cached ds) values) /\
  (background_evaluations ds1 = background_evaluations ds
     <-> same_parameter_values (background_parameters_cached ds) values) /\
  (In NaN values -> background_evaluations ds1 = S (background_evaluations ds)).
Proof.
  intros Hoo Hm Hne Hb Hrun.
  unfold npred_background in Hrun; rewrite Hoo in Hrun.
  unfold npred_background_cash, background_parameters_changed in Hrun.
  rewrite Hm, Hb in Hrun.
  pose proof (cached_equal_iff (background_parameters_cached ds) values Hne) as Hiff.
  destruct (cached_equal (background_parameters_cached ds) values) eqn:E; simpl in Hrun.
  - inversion Hrun; subst ds1.
    assert (Hs : same_parameter_values (background_parameters_cached ds) values)
      by (apply Hiff; reflexivity).
    repeat split; intros; try lia; try tauto.
    exfalso; exact (nan_never_same _ _ H Hs).
  - destruct (map_binop Qcmult bkg (evaluate_geom values (geom bkg))) as [scaled|];
      simpl in Hrun; [|discriminate].
    inversion Hrun; subst ds1; simpl.
    assert (Hs : ~ same_parameter_values (background_parameters_cached ds) values)
      by (rewrite <- Hiff; discriminate).
    repeat split; intros; try tauto; try lia.
Qed.

(** ** Signal prediction without contributing evaluators *)

Lemma npred_signal_loop_silent (g : Geom) (stack : bool) (evs : list Evaluator)
    (total : Map Qc) (l : list (string * Map Qc)) :
  (forall e, In e evs -> ev_npred e g = None) ->
  npred_signal_loop g stack evs total l = (total, l).
Proof.
  revert total l; induction evs as [|e evs IH]; intros total l Hnone; simpl; [reflexivity|].
  rewrite (Hnone e (or_introl eq_refl)).
  apply IH; intros e' Hin; apply Hnone; right; exact Hin.
Qed.

Lemma lookup_evaluator_in (evs : list Evaluator) (n : string) (e : Evaluator) :
  lookup_evaluator evs n = Ok e -> In e evs.
Proof.
  induction evs as [|e' evs IH]; simpl; [discriminate|].
  destruct (String.eqb (ev_name e') n).
  - intros H; inversion H; left; reflexivity.
  - intros H; right; exact (IH H).
Qed.

Lemma select_evaluators_in (evs : list Evaluator) (names : list string)
    (acc r : list Evaluator) :
  select_evaluators evs names acc = Ok r -> forall e, In e r -> In e acc \/ In e evs.
Proof.
  revert acc; induction names as [|n names IH]; intros acc; simpl.
  - intros H; inversion H; subst; intros e Hin; left; exact Hin.
  - destruct (lookup_evaluator evs n) as [e0|] eqn:El; simpl; [|discriminate].
    intros H e Hin.
    destruct (IH _ H e Hin) as [Hacc|Hevs]; [|right; exact Hevs].
    destruct (existsb _ acc); [left; exact Hacc|].
    apply in_app_or in Hacc as [Hacc|[<-|[]]]; [left; exact Hacc|].
    right; exact (lookup_evaluator_in _ _ _ El).
Qed.

(** C10: when no evaluator attached to the dataset contributes (in
    particular when it has none), [npred_signal] returns the all-zero map on
    the reference geometry, for [stack=True] and for [stack=False] alike, so
    without a "models" label axis; this also holds for any selection of
    model names that does not raise. *)
Theorem npred_signal_no_contribution (ds : MapDataset) (g : Geom) (stack : bool) :
  ref_geom ds = Ok g ->
  (forall e, In e (evaluators ds) -> ev_npred e g = None) ->
  npred_signal ds None stack = Ok (map_from_geom g) /\
  forall names m, npred_signal ds (Some names) stack = Ok m -> m = map_from_geom g.
Proof.
  intros Hg Hnone; unfold npred_signal; rewrite Hg; simpl; split.
  - rewrite (npred_signal_loop_silent g stack _ _ _ Hnone); reflexivity.
  - intros names m.
    destruct (select_evaluators (evaluators ds) names []) as [evs|] eqn:Es;
      simpl; [|discriminate].
    rewrite (npred_signal_loop_silent g stack evs (map_from_geom g) []).
    + intros H; inversion H; reflexivity.
    + intros e Hin; apply Hnone.
      destruct (select_evaluators_in _ _ _ _ Es e Hin) as [[]|H]; exact H.
Qed.

(** ** Total predicted counts *)

Section PredictionProperties.

Variable evaluate_geom : list fval -> Geom -> Map Qc.
Variable get_wstat_mu_bkg : Qc -> Qc -> Qc -> Qc -> Qc.

Lemma set_background_cache_same (ds : MapDataset) :
  set_background_cache ds (background_cached ds) (background_parameters_cached ds)
    (background_evaluations ds) = ds.
Proof. destruct ds; reflexivity. Qed.

Lemma set_background_cache_twice (ds : MapDataset) c p n c' p' n' :
  set_background_cache (set_background_cache ds c p n) c' p' n'
  = set_background_cache ds c' p' n'.
Proof. destruct ds; reflexivity. Qed.

Lemma ref_geom_cache (ds : MapDataset) c p n :
  ref_geom (set_background_cache ds c p n) = ref_geom ds.
Proof. destruct ds; reflexivity. Qed.

Lemma npred_signal_cache (ds : MapDataset) c p n names stack :
  npred_signal (set_background_cache ds c p n) names stack = npred_signal ds names stack.
Proof. destruct ds; reflexivity. Qed.

Lemma dataset_background_cache (ds : MapDataset) c p n :
  dataset_background (set_background_cache ds c p n) = dataset_background ds.
Proof. destruct ds; reflexivity. Qed.

(** A call of [npred_background] only touches the cache, and a second call
    returns what the first one returned. *)
Lemma npred_background_stable (ds : MapDataset) (r : option (Map Qc)) (ds1 : MapDataset) :
  npred_background evaluate_geom get_wstat_mu_bkg ds = Ok (r, ds1) ->
  (exists c p n, ds1 = set_background_cache ds c p n) /\
  exists ds2, npred_background evaluate_geom get_wstat_mu_bkg ds1 = Ok (r, ds2).
Proof.
  unfold npred_background.
  destruct (onoff ds) eqn:Hoo.
  - intros H; assert (Hds : ds1 = ds).
    { unfold npred_background_onoff in H.
      destruct (alpha ds); simpl in H; [|discriminate].
      destruct (npred_signal ds None true); simpl in H; [|discriminate].
      destruct (ref_geom ds); simpl in H; [|discriminate].
      destruct (counts ds), (counts_off ds); try discriminate.
      match type of H with
      | (if ?c then _ else _) = _ => destruct c
      end; inversion H; reflexivity. }
    subst ds1; split.
    + exists (background_cached ds), (background_parameters_cached ds),
        (background_evaluations ds); symmetry; apply set_background_cache_same.
    + exists ds; rewrite Hoo; exact H.
  - unfold npred_background_cash, background_parameters_changed.
    destruct (background_model ds) as [values|] eqn:Hm;
      [destruct (background_ ds) as [bkg|] eqn:Hb|].
    + destruct (cached_equal (background_parameters_cached ds) values) eqn:E; simpl.
      * intros H; injection H as <- <-; split.
        -- exists (background_cached ds), (background_parameters_cached ds),
             (background_evaluations ds); symmetry; apply set_background_cache_same.
        -- exists ds; rewrite Hoo, Hm, Hb, E; reflexivity.
      * destruct (map_binop Qcmult bkg (evaluate_geom values (geom bkg))) as [scaled|] eqn:Es;
          simpl; [|discriminate].
        intros H; injection H as <- <-; split.
        -- rewrite set_background_cache_twice; eauto.
        -- destruct ds; simpl in *; subst; simpl.
           destruct (negb (params_all_equal values values)); simpl.
           ++ rewrite Es; simpl; eauto.
           ++ eauto.
    + intros H; injection H as <- <-; split.
      * exists (background_cached ds), (background_parameters_cached ds),
          (background_evaluations ds); symmetry; apply set_background_cache_same.
      * exists ds; rewrite Hoo, Hm, Hb; reflexivity.
    + intros H; injection H as <- <-; split.
      * exists (background_cached ds), (background_parameters_cached ds),
          (background_evaluations ds); symmetry; apply set_background_cache_same.
      * exists ds; rewrite Hoo, Hm; reflexivity.
Qed.

Lemma clip_value_zero : clip_value (qc0 + qc0) = qc0.
Proof.
  replace (qc0 + qc0) with qc0 by (apply Qc_is_canon; reflexivity); reflexivity.
Qed.

Lemma nth_clip_combine (a b : list Qc) (i : nat) :
  List.length a = List.length b ->
  nth i (map clip_value (map (fun p => fst p + snd p) (combine a b))) qc0
  = clip_value (nth i a qc0 + nth i b qc0).
Proof.
  revert b i; induction a as [|x a IH]; intros [|y b] i Hl; simpl in Hl; try discriminate.
  - destruct i; symmetry; apply clip_value_zero.
  - destruct i; simpl; [reflexivity|]; apply IH; congruence.
Qed.

(** C1: [npred()] is [npred_signal()] plus [npred_background()] bin by bin
    (the background term left out when the dataset has no background), every
    negative bin set to 0; and a second call, with nothing changed in
    between, returns the same map. *)
Theorem npred_clipped_sum (ds : MapDataset) (m : Map Qc) (ds1 : MapDataset) :
  npred evaluate_geom get_wstat_mu_bkg ds = Ok (m, ds1) ->
  (exists sig, npred_signal ds None true = Ok sig /\
     ((dataset_background ds = Ok None /\ m = clip_negative sig) \/
      (exists b bm, dataset_background ds = Ok (Some b) /\
         npred_background evaluate_geom get_wstat_mu_bkg ds = Ok (Some bm, ds1) /\
         geom m = geom sig /\ List.length (data m) = List.length (data sig) /\
         List.length (data bm) = List.length (data sig) /\
         forall i, nth i (data m) qc0 = clip_value (nth i (data sig) qc0 + nth i (data bm) qc0)))) /\
  exists ds2, npred evaluate_geom get_wstat_mu_bkg ds1 = Ok (m, ds2).
Proof.
  intros H; unfold npred in H.
  destruct (npred_signal ds None true) as [sig|] eqn:Es; simpl in H; [|discriminate].
  destruct (dataset_background ds) as [[b|]|] eqn:Eb; simpl in H; [| |discriminate].
  - destruct (npred_background evaluate_geom get_wstat_mu_bkg ds) as [[r ds1']|] eqn:En;
      simpl in H; [|discriminate].
    destruct r as [bm|]; [|discriminate].
    unfold map_binop in H.
    destruct (Nat.eqb (List.length (data sig)) (List.length (data bm))) eqn:El;
      simpl in H; [|discriminate].
    apply Nat.eqb_eq in El.
    injection H as <- <-; split.
    + exists sig; split; [reflexivity|]; right; exists b, bm.
      repeat split; try assumption; simpl.
      * rewrite !length_map, length_combine, El; lia.
      * symmetry; exact El.
      * intros i; rewrite map_map.
        rewrite <- (nth_clip_combine (data sig) (data bm) i El), map_map; reflexivity.
    + destruct (npred_background_stable _ _ _ En) as [(c & p & n & ->) (ds2 & En2)].
      exists ds2; unfold npred.
      rewrite npred_signal_cache, Es; simpl.
      rewrite dataset_background_cache, Eb; simpl.
      rewrite En2; simpl; unfold map_binop.
      replace (Nat.eqb (List.length (data sig)) (List.length (data bm))) with true
        by (symmetry; apply Nat.eqb_eq; exact El).
      reflexivity.
  - injection H as <- <-; split.
    + exists sig; split; [reflexivity|]; left; split; reflexivity.
    + exists ds; unfold npred; rewrite Es; simpl; rewrite Eb; reflexivity.
Qed.

End PredictionProperties.

(** ** Witnesses *)

Lemma npred_clipped_sum_witness :
  exists m ds1,
    npred norm_model wstat_ex cash_ex = Ok (m, ds1) /\
    ((exists sig, npred_signal cash_ex None true = Ok sig /\
     ((dataset_background cash_ex = Ok None /\ m = clip_negative sig) \/
      (exists b bm, dataset_background cash_ex = Ok (Some b) /\
         npred_background norm_model wstat_ex cash_ex = Ok (Some bm, ds1) /\
         geom m = geom sig /\ List.length (data m) = List.length (data sig) /\
         List.length (data bm) = List.length (data sig) /\
         forall i, nth i (data m) qc0 = clip_value (nth i (data sig) qc0 + nth i (data bm) qc0)))) /\
     exists ds2, npred norm_model wstat_ex ds1 = Ok (m, ds2)).
Proof.
  do 2 eexists; split.
  - reflexivity.
  - apply (npred_clipped_sum norm_model wstat_ex cash_ex); reflexivity.
Defined.

(** On [cash_ex] the bins are 1 + 2 = 3 and -3 + 1 = -2, clipped to 0. *)
Example npred_cash_ex_values :
  match npred norm_model wstat_ex cash_ex with
  | Ok (m, _) => forallb (fun p => qc_eqb (fst p) (snd p)) (combine (data m) [qc 3; qc 0])
                 && Nat.eqb (List.length (data m)) 2
  | Raise => false
  end = true.
Proof. vm_compute; reflexivity. Qed.

Lemma npred_background_reevaluation_witness :
  exists r ds1,
    onoff cash_ex = false /\
    background_model cash_ex = Some [Fin (qc 1); NaN] /\
    [Fin (qc 1); NaN] <> [] /\
    background_ cash_ex = Some (mkMap geom_ex [qc 2; qc 1]) /\
    npred_background norm_model wstat_ex cash_ex = Ok (r, ds1) /\
    ((background_evaluations ds1 = S (background_evaluations cash_ex)
       <-> ~ same_parameter_values (background_parameters_cached cash_ex) [Fin (qc 1); NaN]) /\
     (background_evaluations ds1 = background_evaluations cash_ex
       <-> same_parameter_values (background_parameters_cached cash_ex) [Fin (qc 1); NaN]) /\
     (In NaN [Fin (qc 1); NaN] -> background_evaluations ds1 = S (background_evaluations cash_ex))).
Proof.
  do 2 eexists.
  split; [reflexivity|]; split; [reflexivity|]; split; [discriminate|];
  split; [reflexivity|]; split; [reflexivity|].
  eapply (npred_background_reevaluation norm_model wstat_ex cash_ex [Fin (qc 1); NaN]
           (mkMap geom_ex [qc 2; qc 1])); [reflexivity | reflexivity | discriminate
           | reflexivity | reflexivity].
Defined.

Lemma npred_signal_no_contribution_witness :
  ref_geom silent_ex = Ok geom_ex /\
  (forall e, In e (evaluators silent_ex) -> ev_npred e geom_ex = None) /\
  (npred_signal silent_ex None false = Ok (map_from_geom geom_ex) /\
   forall names m, npred_signal silent_ex (Some names) false = Ok m -> m = map_from_geom geom_ex).
Proof.
  assert (Hg : ref_geom silent_ex = Ok geom_ex) by reflexivity.
  assert (Hn : forall e, In e (evaluators silent_ex) -> ev_npred e geom_ex = None)
    by (intros e [<-|[]]; reflexivity).
  split; [exact Hg|]; split; [exact Hn|].
  exact (npred_signal_no_contribution silent_ex geom_ex false Hg Hn).
Defined.

(** ** Stacking *)

Lemma qc0_plus_mul_zero (b : bool) : qc0 = qc0 + qc0 * b2qc b.
Proof. destruct b; apply Qc_is_canon; reflexivity. Qed.

Lemma qc0_plus_zero : qc0 = qc0 + qc0.
Proof. apply Qc_is_canon; reflexivity. Qed.

Lemma length_stack_weighted (a b : list Qc) (w : list bool) :
  List.length (stack_weighted a b w) = List.length a.
Proof.
  revert b w; induction a as [|x a IH]; intros [|y b] [|v w]; simpl; auto.
Qed.

Lemma length_stack_plain (a b : list Qc) : List.length (stack_plain a b) = List.length a.
Proof. revert b; induction a as [|x a IH]; intros [|y b]; simpl; auto. Qed.

Lemma length_or_data (a b : list bool) : List.length (or_data a b) = List.length a.
Proof. revert b; induction a as [|x a IH]; intros [|y b]; simpl; auto. Qed.

Lemma nth_stack_weighted (a b : list Qc) (w : list bool) (i : nat) :
  List.length b = List.length a -> List.length w = List.length a ->
  nth i (stack_weighted a b w) qc0 = nth i a qc0 + nth i b qc0 * b2qc (nth i w false).
Proof.
  revert b w i; induction a as [|x a IH]; intros [|y b] [|v w] i Hb Hw;
    simpl in *; try discriminate.
  - destruct i; apply qc0_plus_mul_zero.
  - destruct i; [reflexivity|]; apply IH; congruence.
Qed.

Lemma nth_stack_plain (a b : list Qc) (i : nat) :
  List.length b = List.length a ->
  nth i (stack_plain a b) qc0 = nth i a qc0 + nth i b qc0.
Proof.
  revert b i; induction a as [|x a IH]; intros [|y b] i Hb; simpl in *; try discriminate.
  - destruct i; apply qc0_plus_zero.
  - destruct i; [reflexivity|]; apply IH; congruence.
Qed.

Lemma nth_or_data (a b : list bool) (i : nat) :
  List.length b = List.length a ->
  nth i (or_data a b) false = nth i a false || nth i b false.
Proof.
  revert b i; induction a as [|x a IH]; intros [|y b] i Hb; simpl in *; try discriminate.
  - destruct i; reflexivity.
  - destruct i; [reflexivity|]; apply IH; congruence.
Qed.

Lemma length_map_stack (c o : Map Qc) (w : option (Map bool)) :
  List.length (data (map_stack c o w)) = List.length (data c).
Proof.
  destruct w; simpl; [apply length_stack_weighted | apply length_stack_plain].
Qed.

(** A stacked bin: [self] plus [other] times its weight. *)
Lemma nth_map_stack (c o : Map Qc) (w : option (Map bool)) (i : nat) :
  List.length (data o) = List.length (data c) ->
  match w with None => True | Some m => List.length (data m) = List.length (data c) end ->
  nth i (data (map_stack c o w)) qc0
  = nth i (data c) qc0 +
    match w with
    | None => nth i (data o) qc0
    | Some m => nth i (data o) qc0 * b2qc (nth i (data m) false)
    end.
Proof.
  intros Ho Hw; destruct w as [m|]; simpl.
  - apply nth_stack_weighted; assumption.
  - apply nth_stack_plain; assumption.
Qed.

Lemma map_ext_eq {A : Type} (g1 g2 : Geom) (l1 l2 : list A) :
  g1 = g2 -> l1 = l2 -> mkMap g1 l1 = mkMap g2 l2.
Proof. intros -> ->; reflexivity. Qed.

Lemma map_eq_nth {A : Type} (d : A) (a b : Map A) :
  geom a = geom b -> List.length (data a) = List.length (data b) ->
  (forall i, nth i (data a) d = nth i (data b) d) -> a = b.
Proof.
  destruct a as [ga la], b as [gb lb]; simpl; intros -> Hl Hn.
  f_equal; apply nth_ext with (d := d) (d' := d); [exact Hl|intros i _; apply Hn].
Qed.

Lemma stack_background_roles (E : list fval -> Geom -> Map Qc)
    (G : Qc -> Qc -> Qc -> Qc -> Qc) (self other s o : MapDataset) :
  stack_background E G self other = Ok (s, o) -> roles_of s = roles_of self.
Proof.
  unfold stack_background.
  destruct (stat_type self); [|intros H; injection H as <- <-; reflexivity].
  destruct (dataset_background self) as [bs|]; simpl; [|discriminate].
  destruct (dataset_background other) as [bo|]; simpl; [|discriminate].
  destruct bs, bo; try (intros H; injection H as <- <-; reflexivity).
  destruct (npred_background E G self) as [[r s1]|] eqn:E1; simpl; [|discriminate].
  destruct (npred_background E G other) as [[ro o1]|] eqn:E2; simpl; [|discriminate].
  destruct r as [b|], ro as [ob|]; simpl; try discriminate.
  destruct (npred_background_stable E G _ _ _ E1) as [(c & p & n & ->) _].
  destruct (background_model _); intros H; injection H as <- <-; destruct self; reflexivity.
Qed.

(** One call of [stack] combines the roles as [roles_step] does. *)
Lemma stack_roles (E : list fval -> Geom -> Map Qc) (G : Qc -> Qc -> Qc -> Qc -> Qc)
    (self other self' other' : MapDataset) :
  stack E G self other = Ok (self', other') ->
  roles_of self' = roles_step (roles_of self) other.
Proof.
  unfold stack.
  destruct (stack_background E G _ other) as [[s4 o1]|] eqn:Eb; simpl; [|discriminate].
  intros H; injection H as <- <-.
  apply stack_background_roles in Eb.
  unfold roles_of in *; destruct s4, self; simpl in *.
  injection Eb as -> -> ->; reflexivity.
Qed.

(** C2: stacking [other] into [self] adds, bin by bin, [other]'s counts
    weighted by [other]'s safe mask to [self]'s own counts, which are not
    masked; bins outside [other]'s safe mask keep [self]'s counts. *)
Theorem stack_counts_masked (E : list fval -> Geom -> Map Qc)
    (G : Qc -> Qc -> Qc -> Qc -> Qc) (self other : MapDataset)
    (c oc : Map Qc) (m : Map bool) (self' other' : MapDataset) :
  counts self = Some c -> counts other = Some oc -> mask_safe other = Some m ->
  List.length (data oc) = List.length (data c) ->
  List.length (data m) = List.length (data c) ->
  stack E G self other = Ok (self', other') ->
  exists c', counts self' = Some c' /\ geom c' = geom c /\
    List.length (data c') = List.length (data c) /\
    (forall i, nth i (data c') qc0
               = nth i (data c) qc0 + nth i (data oc) qc0 * b2qc (nth i (data m) false)) /\
    (forall i, nth i (data m) false = false -> nth i (data c') qc0 = nth i (data c) qc0).
Proof.
  intros Hc Hoc Hm Hlo Hlm Hs.
  pose proof (stack_roles E G _ _ _ _ Hs) as Hr.
  unfold roles_of, roles_step, stacked_counts in Hr; rewrite Hc, Hoc, Hm in Hr.
  injection Hr as Hc' _ _.
  exists (map_stack c oc (Some m)); split; [exact Hc'|].
  split; [reflexivity|]; split; [apply length_map_stack|].
  assert (Hn : forall i, nth i (data (map_stack c oc (Some m))) qc0
               = nth i (data c) qc0 + nth i (data oc) qc0 * b2qc (nth i (data m) false))
    by (intros i; apply (nth_map_stack c oc (Some m) i Hlo Hlm)).
  split; [exact Hn|].
  intros i Hf; rewrite Hn, Hf; unfold b2qc, qc0; rewrite Qcmult_0_r, Qcplus_0_r; reflexivity.
Qed.

Lemma stacked_counts_exchange (g : Geom) (c : option (Map Qc)) (d1 d2 : MapDataset) :
  opt_on_geom g c -> dataset_on_geom g d1 -> dataset_on_geom g d2 ->
  stacked_counts (stacked_counts c d1) d2 = stacked_counts (stacked_counts c d2) d1.
Proof.
  intros Hc (Hc1 & Hs1 & _) (Hc2 & Hs2 & _).
  destruct c as [c|]; [|unfold stacked_counts; reflexivity].
  destruct Hc as [_ Hlc].
  unfold stacked_counts.
  destruct (counts d1) as [o1|], (counts d2) as [o2|]; try reflexivity.
  destruct Hc1 as [_ Hl1], Hc2 as [_ Hl2].
  assert (Hw1 : match mask_safe d1 with None => True
                | Some m => List.length (data m) = List.length (data c) end)
    by (destruct (mask_safe d1) as [m|]; [destruct Hs1 as [_ H]; congruence | exact I]).
  assert (Hw2 : match mask_safe d2 with None => True
                | Some m => List.length (data m) = List.length (data c) end)
    by (destruct (mask_safe d2) as [m|]; [destruct Hs2 as [_ H]; congruence | exact I]).
  f_equal; apply (map_eq_nth qc0); [reflexivity| |].
  - rewrite !length_map_stack; reflexivity.
  - intros i.
    assert (Hl1' : List.length (data o1) = List.length (data c)) by congruence.
    assert (Hl2' : List.length (data o2) = List.length (data c)) by congruence.
    assert (L1 : List.length (data (map_stack c o1 (mask_safe d1))) = List.length (data c))
      by apply length_map_stack.
    assert (L2 : List.length (data (map_stack c o2 (mask_safe d2))) = List.length (data c))
      by apply length_map_stack.
    rewrite (nth_map_stack (map_stack c o1 (mask_safe d1)) o2 (mask_safe d2) i);
      [| congruence | destruct (mask_safe d2); congruence].
    rewrite (nth_map_stack (map_stack c o2 (mask_safe d2)) o1 (mask_safe d1) i);
      [| congruence | destruct (mask_safe d1); congruence].
    rewrite (nth_map_stack c o1 (mask_safe d1) i Hl1' Hw1).
    rewrite (nth_map_stack c o2 (mask_safe d2) i Hl2' Hw2).
    rewrite <- !Qcplus_assoc; f_equal; apply Qcplus_comm.
Qed.

Lemma mask_stack_exchange (m a b : Map bool) :
  List.length (data a) = List.length (data m) -> List.length (data b) = List.length (data m) ->
  mask_stack (mask_stack m a) b = mask_stack (mask_stack m b) a.
Proof.
  intros Ha Hb; unfold mask_stack; simpl; apply map_ext_eq; [reflexivity|].
  apply nth_ext with (d := false) (d' := false).
  - rewrite !length_or_data; reflexivity.
  - intros i _.
    rewrite !nth_or_data; try (rewrite length_or_data; congruence); try congruence.
    destruct (nth i (data m) false), (nth i (data a) false), (nth i (data b) false); reflexivity.
Qed.

Lemma mask_stack_comm (a b : Map bool) :
  geom a = geom b -> List.length (data a) = List.length (data b) ->
  mask_stack a b = mask_stack b a.
Proof.
  intros Hg Hl; unfold mask_stack; apply map_ext_eq; [exact Hg|].
  apply nth_ext with (d := false) (d' := false).
  - rewrite !length_or_data; exact Hl.
  - intros i _; rewrite !nth_or_data; [apply orb_comm | congruence | congruence].
Qed.

Lemma stacked_safe_exchange (g : Geom) (s s1 s2 : option (Map bool)) :
  opt_on_geom g s -> opt_on_geom g s1 -> opt_on_geom g s2 ->
  stacked_safe (stacked_safe s s1) s2 = stacked_safe (stacked_safe s s2) s1.
Proof.
  intros Hs H1 H2.
  destruct s as [m|]; [|reflexivity].
  destruct s1 as [a|], s2 as [b|]; simpl; try reflexivity.
  destruct Hs as [_ Hm], H1 as [_ Ha], H2 as [_ Hb].
  f_equal; apply mask_stack_exchange; congruence.
Qed.

Lemma stacked_fit_exchange (g : Geom) (f f1 f2 : option (Map bool)) :
  opt_on_geom g f -> opt_on_geom g f1 -> opt_on_geom g f2 ->
  stacked_fit (stacked_fit f f1) f2 = stacked_fit (stacked_fit f f2) f1.
Proof.
  intros Hf H1 H2.
  destruct f as [m|], f1 as [a|], f2 as [b|]; simpl; try reflexivity.
  - destruct Hf as [_ Hm], H1 as [_ Ha], H2 as [_ Hb].
    f_equal; apply mask_stack_exchange; congruence.
  - destruct H1 as [Ga La], H2 as [Gb Lb].
    f_equal; apply mask_stack_comm; congruence.
Qed.

Lemma roles_step_on_geom (g : Geom) (c : option (Map Qc)) (s f : option (Map bool))
    (d : MapDataset) :
  opt_on_geom g c -> opt_on_geom g s -> opt_on_geom g f -> dataset_on_geom g d ->
  let '(c', s', f') := roles_step (c, s, f) d in
  opt_on_geom g c' /\ opt_on_geom g s' /\ opt_on_geom g f'.
Proof.
  intros Hc Hs Hf (Hdc & Hds & Hdf); simpl; repeat split.
  - unfold stacked_counts; destruct c as [c|]; [|exact I].
    destruct (counts d); [|exact Hc].
    destruct Hc as [Hg Hl]; split; [exact Hg|]; rewrite length_map_stack; exact Hl.
  - destruct s as [m|]; [|exact I]; destruct (mask_safe d) as [om|]; [|exact Hs].
    destruct Hs as [Hg Hl]; split; [exact Hg|]; simpl; rewrite length_or_data; exact Hl.
  - destruct f as [m|], (mask_fit d) as [om|]; simpl; try exact I; try assumption.
    destruct Hf as [Hg Hl]; split; [exact Hg|]; simpl; rewrite length_or_data; exact Hl.
Qed.

Lemma roles_step_exchange (g : Geom) (c : option (Map Qc)) (s f : option (Map bool))
    (d1 d2 : MapDataset) :
  opt_on_geom g c -> opt_on_geom g s -> opt_on_geom g f ->
  dataset_on_geom g d1 -> dataset_on_geom g d2 ->
  roles_step (roles_step (c, s, f) d1) d2 = roles_step (roles_step (c, s, f) d2) d1.
Proof.
  intros Hc Hs Hf H1 H2; simpl.
  pose proof H1 as (_ & Hs1 & Hf1); pose proof H2 as (_ & Hs2 & Hf2).
  rewrite (stacked_counts_exchange g c d1 d2 Hc H1 H2).
  rewrite (stacked_safe_exchange g s _ _ Hs Hs1 Hs2).
  rewrite (stacked_fit_exchange g f _ _ Hf Hf1 Hf2).
  reflexivity.
Qed.

(** Exchanging two datasets stacked after a common prefix. *)
Lemma roles_step_exchange' (g : Geom) r (d1 d2 : MapDataset) :
  (let '(c, s, f) := r in opt_on_geom g c /\ opt_on_geom g s /\ opt_on_geom g f) ->
  dataset_on_geom g d1 -> dataset_on_geom g d2 ->
  roles_step (roles_step r d1) d2 = roles_step (roles_step r d2) d1.
Proof.
  destruct r as [[c s] f]; intros (Hc & Hs & Hf); apply roles_step_exchange; assumption.
Qed.

Lemma roles_step_on_geom' (g : Geom) r (d : MapDataset) :
  (let '(c, s, f) := r in opt_on_geom g c /\ opt_on_geom g s /\ opt_on_geom g f) ->
  dataset_on_geom g d ->
  let '(c, s, f) := roles_step r d in opt_on_geom g c /\ opt_on_geom g s /\ opt_on_geom g f.
Proof.
  destruct r as [[c s] f]; intros (Hc & Hs & Hf) Hd.
  exact (roles_step_on_geom g c s f d Hc Hs Hf Hd).
Qed.

Lemma stack_seq_raise (E : list fval -> Geom -> Map Qc) (G : Qc -> Qc -> Qc -> Qc -> Qc)
    (l : list MapDataset) :
  fold_left (fun r d => let* a := r in let* p := stack E G a d in Ok (fst p)) l Raise = Raise.
Proof. induction l as [|d l IH]; simpl; [reflexivity | exact IH]. Qed.

Lemma stack_seq_roles (E : list fval -> Geom -> Map Qc) (G : Qc -> Qc -> Qc -> Qc -> Qc)
    (acc : MapDataset) (l : list MapDataset) (r : MapDataset) :
  stack_seq E G acc l = Ok r -> roles_of r = fold_left roles_step l (roles_of acc).
Proof.
  revert acc; induction l as [|d l IH]; intros acc; unfold stack_seq; cbn [fold_left bind].
  - intros H; injection H as <-; reflexivity.
  - destruct (stack E G acc d) as [[s o]|] eqn:Es; cbn [bind fst].
    + intros H; rewrite <- (stack_roles E G acc d s o Es); apply IH; exact H.
    + rewrite stack_seq_raise; discriminate.
Qed.

Lemma masked_total_roles (r1 r2 : MapDataset) :
  roles_of r1 = roles_of r2 -> masked_total_counts r1 = masked_total_counts r2.
Proof.
  unfold roles_of, masked_total_counts, dataset_mask; intros H; injection H as -> -> ->.
  reflexivity.
Qed.

Lemma from_geoms_on_geom (g : Geom) :
  let '(c, s, f) := roles_of (from_geoms g) in
  opt_on_geom g c /\ opt_on_geom g s /\ opt_on_geom g f.
Proof.
  simpl; unfold on_geom; simpl; rewrite !repeat_length; repeat split.
Qed.

(** C5: stacking three datasets on a common geometry (whatever their safe
    and fit masks) into an empty dataset created from that geometry gives
    the same masked total counts in the order A, B, C as in the order C, B, A. *)
Theorem stack_order_masked_total (E : list fval -> Geom -> Map Qc)
    (G : Qc -> Qc -> Qc -> Qc -> Qc) (g : Geom) (A B C r1 r2 : MapDataset) :
  dataset_on_geom g A -> dataset_on_geom g B -> dataset_on_geom g C ->
  stack_seq E G (from_geoms g) [A; B; C] = Ok r1 ->
  stack_seq E G (from_geoms g) [C; B; A] = Ok r2 ->
  masked_total_counts r1 = masked_total_counts r2.
Proof.
  intros HA HB HC H1 H2.
  apply masked_total_roles.
  rewrite (stack_seq_roles E G _ _ _ H1), (stack_seq_roles E G _ _ _ H2); cbn [fold_left].
  set (R0 := roles_of (from_geoms g)).
  pose proof (from_geoms_on_geom g) as H0; fold R0 in H0.
  pose proof (roles_step_on_geom' g R0 A H0 HA) as H0A.
  pose proof (roles_step_on_geom' g R0 C H0 HC) as H0C.
  rewrite (roles_step_exchange' g (roles_step R0 A) B C H0A HB HC).
  rewrite (roles_step_exchange' g R0 A C H0 HA HC).
  rewrite (roles_step_exchange' g (roles_step R0 C) A B H0C HA HB).
  reflexivity.
Qed.

(** ** Witnesses of the stacking properties *)

Lemma stack_counts_masked_witness :
  exists self' other',
    counts stack_b = Some (mkMap geom_ex [qc 2; qc 2]) /\
    counts stack_a = Some (mkMap geom_ex [qc 3; qc 5]) /\
    mask_safe stack_a = Some (mkMap geom_ex [true; false]) /\
    List.length [qc 3; qc 5] = List.length [qc 2; qc 2] /\
    List.length [true; false] = List.length [qc 2; qc 2] /\
    stack norm_model wstat_ex stack_b stack_a = Ok (self', other') /\
    exists c', counts self' = Some c' /\ geom c' = geom_ex /\
      List.length (data c') = List.length [qc 2; qc 2] /\
      (forall i, nth i (data c') qc0
                 = nth i [qc 2; qc 2] qc0 + nth i [qc 3; qc 5] qc0 * b2qc (nth i [true; false] false)) /\
      (forall i, nth i [true; false] false = false -> nth i (data c') qc0 = nth i [qc 2; qc 2] qc0).
Proof.
  do 2 eexists.
  do 5 (split; [reflexivity|]); split; [reflexivity|].
  eapply (stack_counts_masked norm_model wstat_ex stack_b stack_a
            (mkMap geom_ex [qc 2; qc 2]) (mkMap geom_ex [qc 3; qc 5])
            (mkMap geom_ex [true; false])); reflexivity.
Defined.

Lemma stack_order_masked_total_witness :
  exists r1 r2,
    dataset_on_geom geom_ex stack_a /\ dataset_on_geom geom_ex stack_b /\
    dataset_on_geom geom_ex stack_c /\
    stack_seq norm_model wstat_ex (from_geoms geom_ex) [stack_a; stack_b; stack_c] = Ok r1 /\
    stack_seq norm_model wstat_ex (from_geoms geom_ex) [stack_c; stack_b; stack_a] = Ok r2 /\
    masked_total_counts r1 = masked_total_counts r2.
Proof.
  assert (HA : dataset_on_geom geom_ex stack_a)
    by (unfold dataset_on_geom, on_geom; simpl; repeat split).
  assert (HB : dataset_on_geom geom_ex stack_b)
    by (unfold dataset_on_geom, on_geom; simpl; repeat split).
  assert (HC : dataset_on_geom geom_ex stack_c)
    by (unfold dataset_on_geom, on_geom; simpl; repeat split).
  do 2 eexists.
  do 3 (split; [assumption|]).
  split; [reflexivity|]; split; [reflexivity|].
  eapply (stack_order_masked_total norm_model wstat_ex geom_ex stack_a stack_b stack_c);
    [exact HA | exact HB | exact HC | reflexivity | reflexivity].
Defined.

(** ** Stacking incomplete on/off datasets *)

(** Claim C3: an on/off dataset without acceptances whose safe mask
    excludes every bin passes [_is_stackable], as does a complete one, yet
    [MapDatasetOnOff.stack] raises for the pair in either order: it stacks
    the missing acceptance into [total_acceptance] before any masking, so
    no [acceptance_off] is computed. *)
Theorem stack_onoff_masked_incomplete_raises
    (E : list fval -> Geom -> Map Qc) (G : Qc -> Qc -> Qc -> Qc -> Qc) :
  is_stackable onoff_masked_incomplete = Ok true /\
  is_stackable onoff_complete = Ok true /\
  stack_onoff E G onoff_masked_incomplete onoff_complete = Raise /\
  stack_onoff E G onoff_complete onoff_masked_incomplete = Raise.
Proof.
  repeat split; reflexivity.
Qed.

(** ** Construction without a geometry *)



(** ** Write and read *)

Lemma hdu_lookup_app (n : string) (l1 l2 : HDUList) :
  hdu_lookup n (l1 ++ l2) =
  match hdu_lookup n l1 with Some h => Some h | None => hdu_lookup n l2 end.
Proof.
  induction l1 as [|[n' h] l1 IH]; simpl; [reflexivity|].
  destruct (String.eqb n' n); [reflexivity | exact IH].
Qed.

Lemma hdu_delete_lookup (d n : string) (l l' : HDUList) :
  hdu_delete d l = Ok l' -> n <> d -> hdu_lookup n l' = hdu_lookup n l.
Proof.
  revert l'. induction l as [|[n' h] l IH]; intros l' Hd Hn; simpl in Hd.
  - discriminate.
  - destruct (String.eqb n' d) eqn:E.
    + injection Hd as <-. apply String.eqb_eq in E. subst n'. simpl.
      apply String.eqb_neq in Hn. rewrite String.eqb_sym, Hn. reflexivity.
    + destruct (hdu_delete d l) as [l''|] eqn:Hl; simpl in Hd; [|discriminate].
      injection Hd as <-. simpl. rewrite (IH l'' eq_refl Hn). reflexivity.
Qed.

Lemma hdu_lookup_delete_none (n : string) (l : HDUList) :
  hdu_lookup n l = None -> hdu_delete n l = Raise.
Proof.
  induction l as [|[n' h] l IH]; simpl; [reflexivity|].
  destruct (String.eqb n' n); [discriminate|]. intros H. rewrite (IH H). reflexivity.
Qed.

Lemma hdu_lookup_delete_some (n : string) (l : HDUList) (h : HDU) :
  hdu_lookup n l = Some h -> exists l', hdu_delete n l = Ok l'.
Proof.
  induction l as [|[n' h'] l IH]; simpl; [discriminate|].
  destruct (String.eqb n' n); [eauto|]. intros H. destruct (IH H) as [l' ->]. simpl. eauto.
Qed.

Lemma hdu_opt_lookup_self (name : string) (o : option NDMap) :
  hdu_lookup name (hdu_opt name o) = option_map (fun m => ImageHDU (map_to_hdu m)) o.
Proof. destruct o as [m|]; simpl; [rewrite String.eqb_refl|]; reflexivity. Qed.

Lemma hdu_opt_lookup_other (name n : string) (o : option NDMap) :
  String.eqb name n = false -> String.eqb (name ++ "_BANDS") n = false ->
  hdu_lookup n (hdu_opt name o) = None.
Proof.
  intros H1 H2. destruct o as [m|]; [|reflexivity].
  unfold hdu_opt, map_hdus. cbn [hdu_lookup]. rewrite H1.
  destruct (nd_geom m); cbn [hdu_lookup]; [reflexivity|]. rewrite H2. reflexivity.
Qed.

(** Rewrites [hdu_lookup n (hdu_opt name o)] to [None] for another name. *)
Ltac hdu_lookup_other name :=
  rewrite (hdu_opt_lookup_other name) by reflexivity.

(** Computes a lookup in a concatenation of [hdu_opt] lists. *)
Ltac hdu_lookup_solve :=
  unfold role_hdus; rewrite ?hdu_lookup_app, ?hdu_opt_lookup_self;
  repeat (first [ hdu_lookup_other "COUNTS"%string | hdu_lookup_other "EXPOSURE"%string
                | hdu_lookup_other "BACKGROUND"%string | hdu_lookup_other "MASK_SAFE"%string
                | hdu_lookup_other "MASK_FIT"%string | hdu_lookup_other "COUNTS_OFF"%string
                | hdu_lookup_other "ACCEPTANCE"%string
                | hdu_lookup_other "ACCEPTANCE_OFF"%string ]);
  repeat match goal with
         | |- context [io_counts ?d] => destruct (io_counts d)
         | |- context [io_exposure ?d] => destruct (io_exposure d)
         | |- context [io_mask_safe ?d] => destruct (io_mask_safe d)
         | |- context [io_mask_fit ?d] => destruct (io_mask_fit d)
         | |- context [hdu_opt _ ?o] => is_var o; destruct o
         | |- context [option_map _ ?o] => is_var o; destruct o
         end; reflexivity.

Lemma role_hdus_lookup (ds : DatasetIO) (bkg : option NDMap) :
  hdu_lookup "COUNTS" (role_hdus ds bkg) = option_map (fun m => ImageHDU (map_to_hdu m)) (io_counts ds) /\
  hdu_lookup "EXPOSURE" (role_hdus ds bkg) = option_map (fun m => ImageHDU (map_to_hdu m)) (io_exposure ds) /\
  hdu_lookup "BACKGROUND" (role_hdus ds bkg) = option_map (fun m => ImageHDU (map_to_hdu m)) bkg /\
  hdu_lookup "MASK_SAFE" (role_hdus ds bkg) = option_map (fun m => ImageHDU (map_to_hdu m)) (io_mask_safe ds) /\
  hdu_lookup "MASK_FIT" (role_hdus ds bkg) = option_map (fun m => ImageHDU (map_to_hdu m)) (io_mask_fit ds) /\
  hdu_lookup "COUNTS_OFF" (role_hdus ds bkg) = None /\
  hdu_lookup "ACCEPTANCE" (role_hdus ds bkg) = None /\
  hdu_lookup "ACCEPTANCE_OFF" (role_hdus ds bkg) = None.
Proof.
  repeat split; hdu_lookup_solve.
Qed.

Lemma role_hdus_background_bands (ds : DatasetIO) (b : NDMap) :
  hdu_lookup "BACKGROUND_BANDS" (role_hdus ds (Some b)) =
  match nd_geom b with [] => None | ax :: axs => Some (BandsHDU (ax :: axs)) end.
Proof.
  unfold role_hdus. rewrite !hdu_lookup_app.
  hdu_lookup_other "COUNTS"%string. hdu_lookup_other "EXPOSURE"%string.
  hdu_lookup_other "MASK_SAFE"%string. hdu_lookup_other "MASK_FIT"%string.
  unfold hdu_opt, map_hdus. cbn [hdu_lookup]. simpl String.eqb. cbv iota.
  destruct (nd_geom b); reflexivity.
Qed.

(** Claim C7: an on/off dataset without [counts_off] cannot be written:
    its background is [None], so [MapDataset.to_hdulist] writes no
    BACKGROUND HDU and [del hdulist["BACKGROUND"]] raises a [KeyError];
    [write] and the read after it fail. *)
Theorem onoff_write_without_counts_off_raises (ds : DatasetIO) :
  io_onoff ds = true -> io_counts_off ds = None ->
  to_hdulist ds = Raise /\ write_read ds = Raise.
Proof.
  intros Ho Hoff.
  assert (H : to_hdulist ds = Raise).
  { unfold to_hdulist. rewrite Ho. unfold io_onoff_background. rewrite Hoff. cbn [bind].
    destruct (role_hdus_lookup ds None) as (_ & _ & Lb & _).
    rewrite (hdu_lookup_delete_none _ _ Lb). reflexivity. }
  split; [exact H|]. unfold write_read. rewrite H. reflexivity.
Qed.

(** ** Position angles of sampled events *)

Lemma Q2Qc_this (q : Q) : (this (Q2Qc q) == q)%Q.
Proof. apply Qred_correct. Qed.

Lemma uniform_this (low high u : Qc) :
  (this (uniform low high u) == this low + (this high - this low) * this u)%Q.
Proof.
  change (this (uniform low high u)) with (this (low + (high - low) * u)).
  unfold Qcminus, Qcplus, Qcmult, Qcopp, Q2Qc. cbn [this].
  rewrite !Qred_correct. reflexivity.
Qed.

(** Claim C8: every position angle [sample_coord] draws from a uniform
    variate in [0, 1) lies in (1, 360] degrees: [uniform(360)] takes 360 as
    the lower bound and keeps the upper bound 1, so the angle is
    [360 - 359 u], never in [0, 1] and 360 for the draw 0. *)
Theorem sample_position_angles_range (draws : list Qc) :
  Forall (fun u => 0 <= u /\ u < 1) draws ->
  Forall (fun a => Q2Qc 1 < a /\ a <= Q2Qc 360) (sample_position_angles draws) /\
  (In 0 draws -> In (Q2Qc 360) (sample_position_angles draws)).
Proof.
  intros H. split.
  - unfold sample_position_angles. apply Forall_map.
    refine (Forall_impl _ _ H). intros u [H0 H1].
    unfold Qcle, Qclt in *. rewrite (uniform_this (Q2Qc 360) qc1 u).
    unfold qc1. rewrite !Q2Qc_this.
    change (this 0) with 0%Q in H0. change (this 1) with 1%Q in H1.
    split; lra.
  - intros Hin. unfold sample_position_angles.
    apply (in_map (fun u => uniform (Q2Qc 360) qc1 u)) in Hin.
    exact Hin.
Qed.

(** ** Kernel geometry of [get_psf_kernel] *)

Lemma qc_ltb_true (a b : Qc) : qc_ltb a b = true -> a < b.
Proof.
  unfold qc_ltb, Qclt. intros H. apply negb_true_iff in H.
  apply Qnot_le_lt. intros Hle. apply Qle_bool_iff in Hle. congruence.
Qed.

Lemma qc_ltb_false (a b : Qc) : qc_ltb a b = false -> b <= a.
Proof.
  unfold qc_ltb, Qcle. intros H. apply negb_false_iff in H.
  apply Qle_bool_iff. exact H.
Qed.

Lemma py_min_spec (a b : Qc) :
  py_min a b <= a /\ py_min a b <= b /\ (py_min a b = a \/ py_min a b = b).
Proof.
  unfold py_min. destruct (qc_ltb b a) eqn:E.
  - apply qc_ltb_true in E. split; [apply Qclt_le_weak; exact E|].
    split; [apply Qcle_refl | right; reflexivity].
  - apply qc_ltb_false in E. split; [apply Qcle_refl|].
    split; [exact E | left; reflexivity].
Qed.

Lemma round_up_to_odd_bound (c : Z) : (c <= c / 2 * 2 + 1)%Z /\ Z.odd (c / 2 * 2 + 1) = true.
Proof.
  split.
  - pose proof (Z.div_mod c 2 ltac:(lia)). pose proof (Z.mod_pos_bound c 2 ltac:(lia)). lia.
  - rewrite Z.add_comm, Z.mul_comm. apply Z.odd_add_mul_2.
Qed.

(** Claim C9 (counterexample): a given [max_radius] is used as it is, here
    5 for a PSF tabulated up to 1 and a target geometry of width 2, so it
    exceeds both the tabulated extent and half the width. *)
Lemma psf_kernel_given_radius_unclamped :
  fst (psf_kernel_geom (Some (qc 5)) (qc 1) [] (qc 2) [qc 2] (qc 1)) = qc 5 /\
  np_max (qc 1) [] < qc 5 /\ np_min (qc 2) [qc 2] / Q2Qc 2 < qc 5.
Proof.
  split; [reflexivity|]. split; vm_compute; reflexivity.
Qed.

(** Claim C9 (amended): without a [max_radius] the kernel radius is the
    lesser of the largest rad-axis center and half the smallest width of
    the target geometry; a given [max_radius] is used unchanged; in both
    cases the kernel geometry has an odd number of pixels, at least
    [2 * max_radius / binsz]. *)
Theorem psf_kernel_geom_radius_odd (max_radius : option Qc) (rad0 : Qc) (rads : list Qc)
    (w0 : Qc) (ws : list Qc) (binsz : Qc) :
  let '(r, npix) := psf_kernel_geom max_radius rad0 rads w0 ws binsz in
  (max_radius = None ->
     r <= np_max rad0 rads /\ r <= np_min w0 ws / Q2Qc 2 /\
     (r = np_max rad0 rads \/ r = np_min w0 ws / Q2Qc 2)) /\
  (forall r0, max_radius = Some r0 -> r = r0) /\
  Z.odd npix = true /\
  (this (Q2Qc 2 * r / binsz) <= inject_Z npix)%Q.
Proof.
  unfold psf_kernel_geom.
  split; [|split; [|split]].
  - intros ->. apply py_min_spec.
  - intros r0 ->. reflexivity.
  - apply round_up_to_odd_bound.
  - unfold to_odd_npix.
    set (f := this (Q2Qc 2 * kernel_max_radius max_radius rad0 rads w0 ws / binsz)).
    apply (Qle_trans _ (inject_Z (Qceiling f))); [apply Qle_ceiling|].
    rewrite <- Zle_Qle. apply round_up_to_odd_bound.
Qed.

(** ** Witnesses of the remaining properties *)


Lemma onoff_write_without_counts_off_raises_witness :
  to_hdulist onoff_io_without_off = Raise /\ write_read onoff_io_without_off = Raise.
Proof. apply onoff_write_without_counts_off_raises; reflexivity. Defined.

Lemma sample_position_angles_range_witness :
  Forall (fun a => Q2Qc 1 < a /\ a <= Q2Qc 360) (sample_position_angles [0; Q2Qc (1 # 2)]) /\
  In (Q2Qc 360) (sample_position_angles [0; Q2Qc (1 # 2)]).
Proof.
  assert (H : Forall (fun u => 0 <= u /\ u < 1) [0; Q2Qc (1 # 2)]).
  { repeat constructor; vm_compute; try reflexivity; discriminate. }
  split.
  - apply (proj1 (sample_position_angles_range [0; Q2Qc (1 # 2)] H)).
  - apply (proj2 (sample_position_angles_range [0; Q2Qc (1 # 2)] H)). left; reflexivity.
Defined.

Lemma psf_kernel_geom_radius_odd_witness :
  fst (psf_kernel_geom None (qc 1) [qc 2] (qc 2) [qc 3] (Q2Qc (1 # 10))) = qc 1 /\
  snd (psf_kernel_geom None (qc 1) [qc 2] (qc 2) [qc 3] (Q2Qc (1 # 10))) = 21%Z /\
  Z.odd 21 = true.
Proof.
  split; [apply Qc_is_canon; vm_compute; reflexivity|].
  split; [vm_compute; reflexivity|].
  exact (proj1 (proj2 (proj2
    (psf_kernel_geom_radius_odd None (qc 1) [qc 2] (qc 2) [qc 3] (Q2Qc (1 # 10)))))).
Defined.

(** * Further properties of the datasets *)

Lemma or_data_false_l (n : nat) (m : list bool) :
  List.length m = n -> or_data (repeat false n) m = m.
Proof.
  revert m; induction n as [|n IH]; intros [|x m] H; simpl in *; try discriminate; [reflexivity|].
  f_equal. apply IH. lia.
Qed.

Lemma nth_repeat_qc0 (n i : nat) : nth i (repeat qc0 n) qc0 = qc0.
Proof. revert i; induction n; intros [|i]; simpl; auto. Qed.

Lemma qc0_plus_l (x : Qc) : qc0 + x = x.
Proof. apply Qcplus_0_l. Qed.

(** X1: [MapDataset.to_masked] on a Cash dataset without background model
    whose counts, background and safe mask lie on one geometry returns a
    dataset whose counts and background are the original ones multiplied bin
    by bin by the safe mask (zero outside it), which keeps that safe mask and
    the fit mask, and which carries no models. *)
Theorem to_masked_applies_safe_mask (E : list fval -> Geom -> Map Qc)
    (G : Qc -> Qc -> Qc -> Qc -> Qc) (ds r : MapDataset) (g : Geom)
    (c b : Map Qc) (m : Map bool) :
  onoff ds = false -> background_model ds = None ->
  counts ds = Some c -> background_ ds = Some b -> mask_safe ds = Some m ->
  on_geom g c -> on_geom g b -> on_geom g m ->
  to_masked E G ds = Ok r ->
  (exists c', counts r = Some c' /\ on_geom g c' /\
     forall i, nth i (data c') qc0 = nth i (data c) qc0 * b2qc (nth i (data m) false)) /\
  (exists b', background_ r = Some b' /\ on_geom g b' /\
     forall i, nth i (data b') qc0 = nth i (data b) qc0 * b2qc (nth i (data m) false)) /\
  mask_safe r = Some m /\ mask_fit r = mask_fit ds /\
  evaluators r = [] /\ background_model r = None.
Proof.
  intros Hon Hbm Hc Hb Hm [Gc Lc] [Gb Lb] [Gm Lm] Hr.
  unfold to_masked, ref_geom in Hr. rewrite Hon, Hc in Hr. simpl in Hr.
  rewrite Gc in Hr.
  unfold stack, stack_background, dataset_background in Hr. simpl in Hr.
  rewrite Hon, Hb in Hr. simpl in Hr.
  unfold npred_background in Hr. rewrite Hon in Hr. simpl in Hr.
  unfold npred_background_cash in Hr. rewrite Hbm, Hb in Hr. simpl in Hr.
  rewrite Hc, Hm in Hr. simpl in Hr.
  injection Hr as <-. simpl.
  assert (Z : forall (x : list Qc) i, List.length x = geom_size g ->
            nth i (data (map_stack (map_from_geom g) (mkMap g x) (Some m))) qc0
            = nth i x qc0 * b2qc (nth i (data m) false)).
  { intros x i Hx. unfold map_stack, map_from_geom. simpl.
    rewrite nth_stack_weighted; rewrite ?repeat_length; try lia.
    rewrite nth_repeat_qc0. apply qc0_plus_l. }
  split; [|split; [|split; [|split; [|split]]]].
  - eexists; split; [reflexivity|]. split.
    + split; [reflexivity|]. rewrite length_map_stack. simpl. apply repeat_length.
    + intros i. destruct c as [gc xc]. simpl in *. subst gc. apply Z. exact Lc.
  - eexists; split; [reflexivity|]. split.
    + split; [reflexivity|]. rewrite length_map_stack. simpl. apply repeat_length.
    + intros i. destruct b as [gb xb]. simpl in *. subst gb. apply Z. exact Lb.
  - destruct m as [gm xm]. simpl in *. subst gm. unfold mask_stack, mask_from_geom. simpl.
    rewrite or_data_false_l; [reflexivity | exact Lm].
  - destruct (mask_fit ds); reflexivity.
  - reflexivity.
  - reflexivity.
Qed.

Lemma stack_plain_zero_l (x : list Qc) (n : nat) :
  List.length x = n -> stack_plain (repeat qc0 n) x = x.
Proof.
  revert x; induction n as [|n IH]; intros [|y x] H; simpl in *; try discriminate; [reflexivity|].
  rewrite qc0_plus_l, IH; [reflexivity | lia].
Qed.

(** X2: [MapDataset.to_masked] on a Cash dataset without background model
    and without safe mask keeps counts and background unchanged and gets an
    all-False safe mask on the reference geometry (the empty dataset's mask,
    which nothing is stacked into). *)
Theorem to_masked_without_safe_mask (E : list fval -> Geom -> Map Qc)
    (G : Qc -> Qc -> Qc -> Qc -> Qc) (ds r : MapDataset) (g : Geom) (c b : Map Qc) :
  onoff ds = false -> background_model ds = None ->
  counts ds = Some c -> background_ ds = Some b -> mask_safe ds = None ->
  on_geom g c -> on_geom g b ->
  to_masked E G ds = Ok r ->
  counts r = Some c /\ background_ r = Some b /\
  mask_safe r = Some (mkMap g (repeat false (geom_size g))).
Proof.
  intros Hon Hbm Hc Hb Hm [Gc Lc] [Gb Lb] Hr.
  unfold to_masked, ref_geom in Hr. rewrite Hon, Hc in Hr. simpl in Hr.
  rewrite Gc in Hr.
  unfold stack, stack_background, dataset_background in Hr. simpl in Hr.
  rewrite Hon, Hb in Hr. simpl in Hr.
  unfold npred_background in Hr. rewrite Hon in Hr. simpl in Hr.
  unfold npred_background_cash in Hr. rewrite Hbm, Hb in Hr. simpl in Hr.
  rewrite Hc, Hm in Hr. simpl in Hr.
  injection Hr as <-. simpl.
  destruct c as [gc xc], b as [gb xb]; simpl in *; subst gc gb.
  unfold map_stack, map_from_geom; simpl.
  rewrite !stack_plain_zero_l by assumption. auto.
Qed.

Lemma map_binop_comm (f : Qc -> Qc -> Qc) (a b x : Map Qc) :
  (forall u v, f u v = f v u) -> map_binop f a b = Ok x ->
  exists y, map_binop f b a = Ok y /\ data y = data x.
Proof.
  intros Hf H. unfold map_binop in *.
  destruct (Nat.eqb (List.length (data a)) (List.length (data b))) eqn:E; [|discriminate].
  injection H as <-. rewrite Nat.eqb_sym, E. eexists; split; [reflexivity|]. simpl.
  generalize (data a) (data b). clear -Hf. induction l as [|u l IH]; intros [|v l']; simpl; auto.
  rewrite Hf, IH. reflexivity.
Qed.

(** X3: [MapDatasetOnOff.to_map_dataset] with off counts returns a Cash
    [MapDataset] whose background holds the on/off background [alpha *
    counts_off] bin by bin, with the counts and masks kept and no models. *)
Theorem to_map_dataset_background (ds r : MapDataset) (off : Map Qc) :
  onoff ds = true -> counts_off ds = Some off -> to_map_dataset ds = Ok r ->
  (exists b b', dataset_background ds = Ok (Some b) /\ background_ r = Some b' /\
                data b' = data b) /\
  onoff r = false /\ stat_type r = Cash /\ counts r = counts ds /\
  mask_safe r = mask_safe ds /\ mask_fit r = mask_fit ds /\
  evaluators r = [] /\ background_model r = None.
Proof.
  intros Hon Hoff Hr. unfold to_map_dataset in Hr. rewrite Hoff in Hr.
  destruct (alpha ds) as [a|] eqn:Ha; simpl in Hr; [|discriminate].
  destruct (map_binop Qcmult off a) as [x|] eqn:Hx; simpl in Hr; [|discriminate].
  injection Hr as <-. simpl. repeat split; auto.
  destruct (map_binop_comm Qcmult off a x Qcmult_comm Hx) as [y [Hy Hd]].
  exists y, x. unfold dataset_background. rewrite Hon, Hoff, Ha. simpl. rewrite Hy.
  simpl. auto.
Qed.


Lemma length_ratios (A O : list Qc) :
  List.length O = List.length A -> List.length (ratios A O) = List.length A.
Proof. intros H. unfold ratios. rewrite length_map, length_combine. lia. Qed.

Lemma off_roundtrip (A O B : list Qc) :
  List.length A = List.length B -> List.length O = List.length B ->
  Forall (fun x => x <> 0) A -> Forall (fun x => x <> 0) O ->
  map (fun p => fst p * snd p) (combine (ratios A O)
       (map (fun p => fst p / snd p) (combine B (ratios A O)))) = B /\
  map (fun p => fst p * snd p)
      (combine (map (fun p => fst p / snd p) (combine B (ratios A O))) (ratios A O)) = B.
Proof.
  revert A O; induction B as [|y B IH]; intros [|a A] [|o O] HA HO FA FO;
    simpl in *; try discriminate; [split; reflexivity|].
  inversion FA as [|? ? Ha FA']; inversion FO as [|? ? Ho FO']; subst.
  destruct (IH A O ltac:(lia) ltac:(lia) FA' FO') as [I1 I2].
  unfold ratios in I1, I2 |- *. simpl. rewrite I1, I2.
  split; f_equal; field; auto.
Qed.

Lemma nan_to_num_div_nonzero (x y : Qc) : y <> 0 -> nan_to_num_div x y = x / y.
Proof.
  intros Hy. unfold nan_to_num_div.
  destruct (qc_eqb y qc0) eqn:E; [|reflexivity].
  apply qc_eqb_iff in E. exfalso. apply Hy. rewrite E. apply Qc_is_canon. reflexivity.
Qed.

Lemma nan_to_num_div_ratios (A O : list Qc) :
  Forall (fun x => x <> 0) O ->
  map (fun p => nan_to_num_div (fst p) (snd p)) (combine A O) = ratios A O.
Proof.
  unfold ratios. revert A; induction O as [|o O IH]; intros [|a A] FO; simpl; auto.
  inversion FO; subst. rewrite nan_to_num_div_nonzero by assumption. f_equal. auto.
Qed.


Lemma div_alpha_list (G : Qc -> Qc -> Qc -> Qc -> Qc) (on off a sig : list Qc) :
  List.length off = List.length on -> List.length a = List.length on ->
  List.length sig = List.length on -> Forall (fun x => x <> 0) a ->
  map (fun p => fst p / snd p)
    (combine (map (fun '(x, (y, (al, s))) => al * G x y al s)
                (combine on (combine off (combine a sig)))) a)
  = map (fun '(x, (y, (al, s))) => G x y al s) (combine on (combine off (combine a sig))).
Proof.
  revert off a sig; induction on as [|x on IH]; intros [|y off] [|al a] [|s sig] Ho Ha Hs Fa;
    simpl in *; try discriminate; [reflexivity|].
  inversion Fa as [|? ? Hal Fa']; subst.
  rewrite IH by (auto; lia). f_equal. field. exact Hal.
Qed.


Lemma npred_signal_loop_stacked (g : Geom) (evs : list Evaluator) (total : Map Qc) :
  snd (npred_signal_loop g true evs total []) = [] /\
  geom (fst (npred_signal_loop g true evs total [])) = geom total.
Proof.
  revert total; induction evs as [|e evs IH]; intros total; simpl; [auto|].
  destruct (ev_npred e g) as [m|]; [|apply IH].
  destruct (IH (map_stack total m None)) as [A B]. split; [exact A | exact B].
Qed.

Lemma npred_signal_stacked_geom (ds : MapDataset) (names : option (list string)) (sig : Map Qc) :
  npred_signal ds names true = Ok sig -> ref_geom ds = Ok (geom sig).
Proof.
  unfold npred_signal. destruct (ref_geom ds) as [g|]; simpl; [|discriminate].
  destruct (match names with None => _ | Some ns => _ end) as [evs|]; simpl; [|discriminate].
  destruct (npred_signal_loop_stacked g evs (map_from_geom g)) as [H1 H2].
  destruct (npred_signal_loop g true evs (map_from_geom g) []) as [t l]. simpl in *.
  subst l. intros H. injection H as <-. rewrite H2. reflexivity.
Qed.

Lemma npred_without_background_model (E : list fval -> Geom -> Map Qc)
    (G : Qc -> Qc -> Qc -> Qc -> Qc) (ds : MapDataset) :
  onoff ds = false -> background_model ds = None ->
  npred E G ds =
  (let* sig := npred_signal ds None true in
   match background_ ds with
   | None => Ok (clip_negative sig, ds)
   | Some b => let* s := map_binop Qcplus sig b in Ok (clip_negative s, ds)
   end).
Proof.
  intros Hon Hbm. unfold npred, dataset_background, npred_background, npred_background_cash.
  rewrite Hon, Hbm. destruct (npred_signal ds None true); simpl; [|reflexivity].
  destruct (background_ ds); reflexivity.
Qed.

Lemma clip_value_nonneg (x : Qc) : 0 <= clip_value x.
Proof.
  unfold clip_value. destruct (qc_ltb x qc0) eqn:E; [apply Qcle_refl|].
  apply qc_ltb_false in E. exact E.
Qed.

(** X6: the Asimov dataset of a Cash dataset without background model has
    non-negative counts equal to its own [npred()], and keeps the background,
    the models and the masks of the original dataset. *)
Theorem asimov_counts_fixpoint (E : list fval -> Geom -> Map Qc)
    (G : Qc -> Qc -> Qc -> Qc -> Qc) (ds a : MapDataset) :
  onoff ds = false -> background_model ds = None -> to_asimov_dataset E G ds = Ok a ->
  exists m, counts a = Some m /\ Forall (fun x => 0 <= x) (data m) /\
    npred E G a = Ok (m, a) /\
    background_ a = background_ ds /\ evaluators a = evaluators ds /\
    mask_safe a = mask_safe ds /\ mask_fit a = mask_fit ds.
Proof.
  intros Hon Hbm Ha. unfold to_asimov_dataset in Ha.
  rewrite (npred_without_background_model E G ds Hon Hbm) in Ha.
  destruct (npred_signal ds None true) as [sig|] eqn:Hs; simpl in Ha; [|discriminate].
  assert (Hg : ref_geom ds = Ok (geom sig)) by exact (npred_signal_stacked_geom _ _ _ Hs).
  assert (Hsa : forall a', onoff a' = false -> evaluators a' = evaluators ds ->
            ref_geom a' = Ok (geom sig) -> npred_signal a' None true = Ok sig).
  { intros a' _ He Hg'. rewrite <- Hs. unfold npred_signal. rewrite Hg, Hg', He. reflexivity. }
  destruct (background_ ds) as [b|] eqn:Hb; simpl in Ha.
  - destruct (map_binop Qcplus sig b) as [s|] eqn:Hsb; simpl in Ha; [|discriminate].
    rewrite Hon in Ha. injection Ha as <-.
    exists (clip_negative s). split; [reflexivity|]. split.
    + apply Forall_forall. intros x Hx. unfold clip_negative in Hx. simpl in Hx.
      apply in_map_iff in Hx. destruct Hx as [y [<- _]]. apply clip_value_nonneg.
    + split; [|auto].
      rewrite npred_without_background_model by (simpl; auto). simpl.
      rewrite Hsa; simpl; auto.
      * rewrite Hb. simpl. rewrite Hsb. reflexivity.
      * unfold ref_geom. simpl. unfold map_binop in Hsb.
        destruct (Nat.eqb _ _); [|discriminate]. injection Hsb as <-. reflexivity.
  - rewrite Hon in Ha. injection Ha as <-.
    exists (clip_negative sig). split; [reflexivity|]. split.
    + apply Forall_forall. intros x Hx. unfold clip_negative in Hx. simpl in Hx.
      apply in_map_iff in Hx. destruct Hx as [y [<- _]]. apply clip_value_nonneg.
    + split; [|auto].
      rewrite npred_without_background_model by (simpl; auto). simpl.
      rewrite Hsa; simpl; auto.
      rewrite Hb. reflexivity.
Qed.

Lemma argmax_bool_first (l : list bool) (i : nat) :
  nth i l false = true -> (forall k, (k < i)%nat -> nth k l false = false) -> argmax_bool l = i.
Proof.
  revert i; induction l as [|x l IH]; intros i Hi Hk.
  - destruct i; discriminate.
  - destruct i as [|i]; simpl in *.
    + rewrite Hi. reflexivity.
    + destruct x.
      * specialize (Hk 0%nat ltac:(lia)). discriminate.
      * f_equal. apply IH; [exact Hi|]. intros k Hk'. apply (Hk (S k)). lia.
Qed.

(** X7: for a pixel whose mask column has True bins, [_energy_range] gives
    the lower edge of the first True bin as minimum and the upper edge of the
    last True bin as maximum; with increasing energy edges the minimum is
    below the maximum. *)
Theorem energy_range_pixel_bounds (edges : list Qc) (col : list bool) (i j : nat) :
  List.length edges = S (List.length col) ->
  (forall p q, (p < q < List.length edges)%nat -> nth p edges qc0 < nth q edges qc0) ->
  nth i col false = true -> (forall k, (k < i)%nat -> nth k col false = false) ->
  (j < List.length col)%nat -> nth j col false = true ->
  (forall k, (j < k < List.length col)%nat -> nth k col false = false) ->
  energy_range_pixel edges col = (Some (nth i edges qc0), Some (nth (S j) edges qc0)) /\
  nth i edges qc0 < nth (S j) edges qc0.
Proof.
  intros Le Inc Hi Hbefore Hj Hjt Hafter.
  assert (Hij : (i <= j)%nat).
  { destruct (Nat.le_gt_cases i j) as [H|H]; [exact H|].
    rewrite (Hbefore j H) in Hjt. discriminate. }
  assert (Hany : existsb (fun b => b) col = true).
  { apply existsb_exists. exists (nth j col false). split; [apply nth_In; exact Hj | exact Hjt]. }
  assert (Hr : argmax_bool (rev col) = (List.length col - S j)%nat).
  { apply argmax_bool_first.
    - rewrite rev_nth by lia. replace (List.length col - S (List.length col - S j))%nat with j by lia.
      exact Hjt.
    - intros k Hk. rewrite rev_nth by lia. apply Hafter. lia. }
  unfold energy_range_pixel. rewrite Hany, (argmax_bool_first col i Hi Hbefore), Hr.
  rewrite rev_nth by lia.
  replace (List.length edges - S (List.length col - S j))%nat with (S j) by lia.
  split; [reflexivity|]. apply Inc. lia.
Qed.

Lemma energy_range_pixel_nan (edges : list Qc) (col : list bool) :
  existsb (fun b => b) col = false -> energy_range_pixel edges col = (None, None).
Proof. intros H. unfold energy_range_pixel. rewrite H. reflexivity. Qed.

(** X8: with a mask, each pixel's energy range in [_energy_range] depends on
    its own mask column only, whether or not other pixels have True bins;
    each bound is NaN exactly when the column has no True bin. *)
Theorem energy_range_per_pixel (edges : list Qc) (cols : list (list bool)) (npix k : nat)
    (col : list bool) :
  nth_error cols k = Some col ->
  nth_error (energy_range edges (Some cols) npix) k = Some (energy_range_pixel edges col) /\
  (fst (energy_range_pixel edges col) = None <-> existsb (fun b => b) col = false) /\
  (snd (energy_range_pixel edges col) = None <-> existsb (fun b => b) col = false).
Proof.
  intros Hk. split.
  - unfold energy_range. destruct (existsb (existsb (fun b => b)) cols) eqn:E.
    + rewrite nth_error_map, Hk. reflexivity.
    + rewrite energy_range_pixel_nan.
      * apply nth_error_repeat. apply nth_error_Some. congruence.
      * destruct (existsb (fun b => b) col) eqn:C; [|reflexivity].
        assert (existsb (existsb (fun b => b)) cols = true) as E'.
        { apply existsb_exists. exists col. split; [eapply nth_error_In; exact Hk | exact C]. }
        congruence.
  - unfold energy_range_pixel.
    destruct (existsb (fun b => b) col); simpl; repeat split; intros H; congruence.
Qed.

Lemma read_map_plain (name : string) (l : HDUList) (o : option NDMap) :
  hdu_lookup name l = option_map (fun m => ImageHDU (map_to_hdu m)) o ->
  is_mask_hdu name = false -> (forall m, o = Some m -> nd_dtype m <> DBool) ->
  read_map name l = Ok o.
Proof.
  intros Hl Hn Hd. unfold read_map. rewrite Hl.
  destruct o as [m|]; [|reflexivity]. simpl. unfold map_from_hdu. rewrite Hn.
  unfold map_to_hdu. destruct (nd_dtype m) eqn:E; [|reflexivity..].
  exfalso. exact (Hd m eq_refl E).
Qed.

Lemma astype_bool_mask (m : NDMap) :
  nd_dtype m = DBool -> Forall (fun x => x = 0 \/ x = 1) (nd_data m) -> astype_bool m = m.
Proof.
  intros Hd Hx. unfold astype_bool. rewrite <- Hd.
  destruct m as [g u d x]; simpl in *. f_equal.
  induction x as [|v x IH]; simpl; [reflexivity|].
  inversion Hx as [|? ? [-> | ->] Hx']; subst; rewrite IH by exact Hx'; reflexivity.
Qed.

Lemma read_map_mask (name : string) (l : HDUList) (o : option NDMap) :
  hdu_lookup name l = option_map (fun m => ImageHDU (map_to_hdu m)) o ->
  is_mask_hdu name = true ->
  (forall m, o = Some m -> nd_dtype m = DBool /\ Forall (fun x => x = 0 \/ x = 1) (nd_data m)) ->
  read_map name l = Ok o.
Proof.
  intros Hl Hn Hd. unfold read_map. rewrite Hl.
  destruct o as [m|]; [|reflexivity]. simpl. unfold map_from_hdu. rewrite Hn.
  destruct (Hd m eq_refl) as [D X]. f_equal. f_equal.
  rewrite <- (astype_bool_mask m D X) at 2. unfold map_to_hdu. rewrite D. reflexivity.
Qed.

Lemma astype_bool_masks (o : option NDMap) :
  (forall m, o = Some m -> nd_dtype m = DBool /\ Forall (fun x => x = 0 \/ x = 1) (nd_data m)) ->
  option_map astype_bool o = o.
Proof.
  intros H. destruct o as [m|]; [|reflexivity]. simpl.
  destruct (H m eq_refl). rewrite astype_bool_mask by assumption. reflexivity.
Qed.

(** X9: a [MapDataset] written with [to_hdulist] and read back with
    [from_hdulist] gets back its counts, exposure, background and boolean
    0/1 masks unchanged, when no map other than the masks is boolean and the
    exposure's first non-spatial axis is not named [energy]. *)
Theorem MapDataset_write_read_roundtrip (ds : DatasetIO) :
  io_onoff ds = false ->
  (forall m, io_counts ds = Some m -> nd_dtype m <> DBool) ->
  (forall m, io_exposure ds = Some m -> nd_dtype m <> DBool /\
     exists n k axes, nd_geom m = (n, k) :: axes /\ n <> "energy"%string) ->
  (forall m, io_background ds = Some m -> nd_dtype m <> DBool) ->
  (forall m, io_mask_safe ds = Some m ->
     nd_dtype m = DBool /\ Forall (fun x => x = 0 \/ x = 1) (nd_data m)) ->
  (forall m, io_mask_fit ds = Some m ->
     nd_dtype m = DBool /\ Forall (fun x => x = 0 \/ x = 1) (nd_data m)) ->
  write_read ds =
  Ok (mkDatasetIO false (io_counts ds) (io_exposure ds) (io_background ds) None None None
        (io_mask_safe ds) (io_mask_fit ds)).
Proof.
  intros Ho Hc He Hb Hs Hf. unfold write_read, to_hdulist. rewrite Ho. cbn [bind].
  unfold MapDataset_from_hdulist.
  destruct (role_hdus_lookup ds (io_background ds)) as (Lc & Le & Lb & Ls & Lf & _).
  rewrite (read_map_plain _ _ _ Lc eq_refl Hc). cbn [bind].
  rewrite (read_map_plain _ _ _ Le eq_refl (fun m H => proj1 (He m H))). cbn [bind].
  assert (R : match io_exposure ds with
              | Some e => let* e := rename_energy_axis e in Ok (Some e)
              | None => Ok None end = Ok (io_exposure ds)).
  { destruct (io_exposure ds) as [e|]; [|reflexivity].
    destruct (He e eq_refl) as [_ (n & k & axes & G & N)].
    unfold rename_energy_axis. rewrite G. apply String.eqb_neq in N. rewrite N. reflexivity. }
  rewrite R. cbn [bind].
  rewrite (read_map_plain _ _ _ Lb eq_refl Hb). cbn [bind].
  rewrite (read_map_mask _ _ _ Ls eq_refl Hs). cbn [bind].
  rewrite (read_map_mask _ _ _ Lf eq_refl Hf). cbn [bind].
  rewrite (astype_bool_masks _ Hs), (astype_bool_masks _ Hf). reflexivity.
Qed.




Lemma lookup_evaluator_missing (evs : list Evaluator) (n : string) :
  (forall e, In e evs -> ev_name e <> n) -> lookup_evaluator evs n = Raise.
Proof.
  induction evs as [|e evs IH]; intros H; simpl; [reflexivity|].
  destruct (String.eqb (ev_name e) n) eqn:E.
  - apply String.eqb_eq in E. exfalso. exact (H e (or_introl eq_refl) E).
  - apply IH. intros e' Hin. apply H. right. exact Hin.
Qed.

Lemma select_evaluators_missing (evs : list Evaluator) (names : list string) (n : string)
    (acc : list Evaluator) :
  In n names -> (forall e, In e evs -> ev_name e <> n) -> select_evaluators evs names acc = Raise.
Proof.
  intros Hin Hn. revert acc. induction names as [|n' names IH]; intros acc; [destruct Hin|].
  simpl. destruct Hin as [<-|Hin].
  - rewrite (lookup_evaluator_missing _ _ Hn). reflexivity.
  - destruct (lookup_evaluator evs n'); simpl; [apply IH; exact Hin | reflexivity].
Qed.

(** X12: [npred_signal] with a list of model names raises when one of the
    names has no evaluator, whatever the other names and [stack]. *)
Theorem npred_signal_unknown_model_raises (ds : MapDataset) (names : list string) (n : string)
    (stack : bool) :
  In n names -> (forall e, In e (evaluators ds) -> ev_name e <> n) ->
  npred_signal ds (Some names) stack = Raise.
Proof.
  intros Hin Hn. unfold npred_signal. destruct (ref_geom ds); simpl; [|reflexivity].
  rewrite (select_evaluators_missing _ _ _ [] Hin Hn). reflexivity.
Qed.

Lemma npred_signal_loop_unstacked (g : Geom) (evs : list Evaluator) (total : Map Qc)
    (l : list (string * Map Qc)) :
  npred_signal_loop g false evs total l =
  (total, l ++ map (fun p => (fst p, map_stack (map_from_geom g) (snd p) None)) (contributing g evs)).
Proof.
  revert l; induction evs as [|e evs IH]; intros l; simpl; [rewrite app_nil_r; reflexivity|].
  destruct (ev_npred e g) as [m|]; [|apply IH].
  rewrite IH, <- app_assoc. reflexivity.
Qed.

Lemma npred_signal_loop_stacked_fold (g : Geom) (evs : list Evaluator) (total : Map Qc)
    (l : list (string * Map Qc)) :
  npred_signal_loop g true evs total l =
  (fold_left (fun t p => map_stack t (snd p) None) (contributing g evs) total, l).
Proof.
  revert total; induction evs as [|e evs IH]; intros total; simpl; [reflexivity|].
  destruct (ev_npred e g) as [m|]; apply IH.
Qed.

Lemma nth_stack_plain_lt (a b : list Qc) (i : nat) :
  (i < List.length a)%nat -> nth i (stack_plain a b) qc0 = nth i a qc0 + nth i b qc0.
Proof.
  revert b i; induction a as [|x a IH]; intros b i Hi; simpl in Hi; [lia|].
  destruct b as [|y b].
  - simpl. destruct i; symmetry; apply Qcplus_0_r.
  - destruct i; simpl; [reflexivity|]. apply IH. lia.
Qed.

Lemma fold_stack_nth (L : list (string * Map Qc)) (total : Map Qc) (i : nat) :
  (i < List.length (data total))%nat ->
  nth i (data (fold_left (fun t p => map_stack t (snd p) None) L total)) qc0
  = nth i (data total) qc0 + qc_sum (map (fun p => nth i (data (snd p)) qc0) L).
Proof.
  revert total; induction L as [|p L IH]; intros total Hi; simpl.
  - symmetry. apply Qcplus_0_r.
  - rewrite IH by (rewrite length_map_stack; exact Hi).
    simpl. rewrite nth_stack_plain_lt by exact Hi. rewrite Qcplus_assoc. reflexivity.
Qed.

Lemma fold_stack_geom (L : list (string * Map Qc)) (total : Map Qc) :
  geom (fold_left (fun t p => map_stack t (snd p) None) L total) = geom total.
Proof. revert total; induction L as [|p L IH]; intros total; simpl; [reflexivity|]. rewrite IH. reflexivity. Qed.

Lemma concat_slices (N i : nat) (pieces : list (list Qc)) :
  (i < N)%nat -> Forall (fun p => List.length p = N) pieces ->
  qc_sum (map (fun k => nth (k * N + i) (List.concat pieces) qc0) (seq 0 (List.length pieces)))
  = qc_sum (map (fun p => nth i p qc0) pieces).
Proof.
  intros Hi. induction pieces as [|p ps IH]; intros Hl; [reflexivity|].
  inversion Hl as [|? ? Hp Hps]; subst. simpl.
  rewrite app_nth1 by lia. f_equal.
  rewrite <- seq_shift, map_map. rewrite <- (IH Hps). f_equal.
  apply map_ext. intros k. rewrite app_nth2 by nia. f_equal. nia.
Qed.

(** X13: when some model contributes, [npred_signal(stack=False)] returns a
    map with a "models" axis, one slice per contributing model, and each bin
    of [npred_signal(stack=True)] is the sum over the models of that bin's
    slices. *)
Theorem npred_signal_stack_sums_models (ds : MapDataset) (g : Geom) (s u : Map Qc) :
  ref_geom ds = Ok g -> contributing g (evaluators ds) <> [] ->
  npred_signal ds None true = Ok s -> npred_signal ds None false = Ok u ->
  geom s = g /\
  geom u = g ++ [("models"%string, List.length (contributing g (evaluators ds)))] /\
  List.length (data u) = (List.length (contributing g (evaluators ds)) * geom_size g)%nat /\
  forall i, (i < geom_size g)%nat ->
    nth i (data s) qc0 =
    qc_sum (map (fun k => nth (k * geom_size g + i) (data u) qc0)
                (seq 0 (List.length (contributing g (evaluators ds))))).
Proof.
  intros Hg Hne Hs Hu. unfold npred_signal in Hs, Hu. rewrite Hg in Hs, Hu. simpl in Hs, Hu.
  rewrite npred_signal_loop_stacked_fold in Hs. injection Hs as <-.
  rewrite npred_signal_loop_unstacked in Hu. simpl in Hu.
  set (L := contributing g (evaluators ds)) in *.
  match type of Hu with context [match ?x with [] => _ | _ :: _ => _ end] =>
    destruct x as [|q0 qs] eqn:EM end.
  { apply map_eq_nil in EM. contradiction. }
  injection Hu as <-. rewrite <- EM. unfold from_stack_models. simpl.
  assert (Hpieces : Forall (fun q => List.length q = geom_size g)
            (map (fun p0 => data (snd p0))
               (map (fun p0 => (fst p0, map_stack (map_from_geom g) (snd p0) None)) L))).
  { apply Forall_forall. intros q Hq. rewrite map_map in Hq. apply in_map_iff in Hq.
    destruct Hq as [x [<- _]]. simpl. rewrite length_stack_plain. apply repeat_length. }
  assert (Hlen : List.length (map (fun p0 => data (snd p0))
            (map (fun p0 => (fst p0, map_stack (map_from_geom g) (snd p0) None)) L)) = List.length L).
  { rewrite !length_map. reflexivity. }
  split; [|split; [rewrite length_map; reflexivity | split]].
  - rewrite fold_stack_geom. reflexivity.
  - rewrite <- Hlen. clear -Hpieces. induction Hpieces as [|q qs Hq _ IH]; simpl; [reflexivity|].
    rewrite length_app, Hq, IH. reflexivity.
  - intros i Hi. rewrite <- Hlen, concat_slices by assumption.
    rewrite fold_stack_nth by (simpl; rewrite repeat_length; exact Hi).
    simpl. rewrite nth_repeat_qc0, Qcplus_0_l, !map_map. f_equal.
    apply map_ext. intros p0. simpl.
    rewrite nth_stack_plain_lt by (rewrite repeat_length; exact Hi).
    rewrite nth_repeat_qc0, Qcplus_0_l. reflexivity.
Qed.

(** X14: stacking two Cash datasets without background models adds the
    other's background, weighted by its safe mask, to the background of
    [self]; when the other has no background [self]'s background is kept
    unchanged; [other] is returned unchanged. *)
Theorem stack_cash_background (E : list fval -> Geom -> Map Qc) (G : Qc -> Qc -> Qc -> Qc -> Qc)
    (self other s o : MapDataset) (b : Map Qc) :
  onoff self = false -> onoff other = false -> stat_type self = Cash ->
  background_model self = None -> background_model other = None ->
  background_ self = Some b -> stack E G self other = Ok (s, o) ->
  o = other /\
  background_ s = Some (match background_ other with
                        | Some ob => map_stack b ob (mask_safe other)
                        | None => b
                        end).
Proof.
  intros Hs Ho Hc Hms Hmo Hb Hst. unfold stack in Hst.
  unfold stack_background, dataset_background in Hst. simpl in Hst.
  rewrite Hc, Hs, Ho, Hb in Hst. simpl in Hst.
  destruct (background_ other) as [ob|] eqn:Hob; simpl in Hst.
  - unfold npred_background, npred_background_cash in Hst. simpl in Hst.
    rewrite Hs, Ho, Hms, Hmo, Hb, Hob in Hst. simpl in Hst. rewrite Hms in Hst.
    injection Hst as <- <-. simpl. auto.
  - injection Hst as <- <-. simpl. auto.
Qed.

(** ** Witnesses of the further properties *)

Lemma to_masked_applies_safe_mask_witness :
  exists r, to_masked norm_model wstat_ex stack_a = Ok r /\
  (exists c', counts r = Some c' /\ on_geom geom_ex c' /\
     forall i, nth i (data c') qc0 = nth i [qc 3; qc 5] qc0 * b2qc (nth i [true; false] false)) /\
  (exists b', background_ r = Some b' /\ on_geom geom_ex b' /\
     forall i, nth i (data b') qc0 = nth i [qc 1; qc 1] qc0 * b2qc (nth i [true; false] false)) /\
  mask_safe r = Some (mkMap geom_ex [true; false]) /\ mask_fit r = mask_fit stack_a /\
  evaluators r = [] /\ background_model r = None.
Proof.
  eexists. split; [reflexivity|].
  eapply (to_masked_applies_safe_mask norm_model wstat_ex stack_a _ geom_ex
           (mkMap geom_ex [qc 3; qc 5]) (mkMap geom_ex [qc 1; qc 1]) (mkMap geom_ex [true; false]));
    try reflexivity; split; reflexivity.
Defined.

Lemma to_masked_without_safe_mask_witness :
  exists r, to_masked norm_model wstat_ex cash_unmasked = Ok r /\
  counts r = Some (mkMap geom_ex [qc 3; qc 5]) /\ background_ r = Some (mkMap geom_ex [qc 1; qc 1]) /\
  mask_safe r = Some (mkMap geom_ex (repeat false (geom_size geom_ex))).
Proof.
  eexists. split; [reflexivity|].
  eapply (to_masked_without_safe_mask norm_model wstat_ex cash_unmasked _ geom_ex);
    try reflexivity; split; reflexivity.
Defined.

Lemma to_map_dataset_background_witness :
  exists r, to_map_dataset onoff_complete = Ok r /\
  (exists b b', dataset_background onoff_complete = Ok (Some b) /\ background_ r = Some b' /\
                data b' = data b) /\
  onoff r = false /\ stat_type r = Cash /\ counts r = counts onoff_complete /\
  mask_safe r = mask_safe onoff_complete /\ mask_fit r = mask_fit onoff_complete /\
  evaluators r = [] /\ background_model r = None.
Proof.
  eexists. split; [reflexivity|].
  eapply (to_map_dataset_background onoff_complete _ (mkMap geom_ex [qc 6; qc 8])); reflexivity.
Defined.



Lemma asimov_counts_fixpoint_witness :
  exists a, to_asimov_dataset norm_model wstat_ex asimov_ex = Ok a /\
  exists m, counts a = Some m /\ Forall (fun x => 0 <= x) (data m) /\
    npred norm_model wstat_ex a = Ok (m, a) /\
    background_ a = background_ asimov_ex /\ evaluators a = evaluators asimov_ex /\
    mask_safe a = mask_safe asimov_ex /\ mask_fit a = mask_fit asimov_ex.
Proof.
  eexists. split; [reflexivity|].
  eapply (asimov_counts_fixpoint norm_model wstat_ex asimov_ex); reflexivity.
Defined.

Lemma energy_range_pixel_bounds_witness :
  energy_range_pixel edges_ex [false; true; true] = (Some (qc 2), Some (qc 4)) /\ qc 2 < qc 4.
Proof.
  eapply (energy_range_pixel_bounds edges_ex [false; true; true] 1 2).
  - reflexivity.
  - intros p q [Hpq Hq]. simpl in Hq.
    destruct q as [|[|[|[|q]]]]; try lia; destruct p as [|[|[|p]]]; try lia;
      vm_compute; reflexivity.
  - reflexivity.
  - intros k Hk. destruct k; [reflexivity | lia].
  - simpl; lia.
  - reflexivity.
  - intros k Hk. simpl in Hk. lia.
Defined.

Lemma energy_range_per_pixel_witness :
  nth_error (energy_range edges_ex (Some [[false; true; false]; [false; false; false]]) 2) 1
    = Some (energy_range_pixel edges_ex [false; false; false]) /\
  (fst (energy_range_pixel edges_ex [false; false; false]) = None <->
   existsb (fun b => b) [false; false; false] = false) /\
  (snd (energy_range_pixel edges_ex [false; false; false]) = None <->
   existsb (fun b => b) [false; false; false] = false).
Proof.
  eapply (energy_range_per_pixel edges_ex [[false; true; false]; [false; false; false]] 2 1).
  reflexivity.
Defined.

Lemma MapDataset_write_read_roundtrip_witness :
  write_read mapdataset_io_ex =
  Ok (mkDatasetIO false (io_counts mapdataset_io_ex) (io_exposure mapdataset_io_ex)
        (io_background mapdataset_io_ex) None None None
        (io_mask_safe mapdataset_io_ex) (io_mask_fit mapdataset_io_ex)).
Proof.
  apply MapDataset_write_read_roundtrip; try reflexivity;
    intros m Hm; simpl in Hm; try discriminate; injection Hm as <-; simpl.
  - discriminate.
  - split; [discriminate|]. exists "energy_true"%string, 2%nat, [].
    split; [reflexivity | discriminate].
  - discriminate.
  - split; [reflexivity|].
    constructor; [right; apply Qc_is_canon; reflexivity|].
    constructor; [left; apply Qc_is_canon; reflexivity|]. constructor.
Defined.




Lemma npred_signal_unknown_model_raises_witness :
  npred_signal cash_ex (Some ["source"%string; "other"%string]) true = Raise.
Proof.
  eapply (npred_signal_unknown_model_raises cash_ex _ "other"%string).
  - right; left; reflexivity.
  - intros e [<-|[]]. discriminate.
Defined.

Lemma npred_signal_stack_sums_models_witness :
  exists s u, npred_signal two_sources_ex None true = Ok s /\
    npred_signal two_sources_ex None false = Ok u /\
    geom s = geom_ex /\
    geom u = geom_ex ++ [("models"%string, 2%nat)] /\
    List.length (data u) = (2 * geom_size geom_ex)%nat /\
    forall i, (i < geom_size geom_ex)%nat ->
      nth i (data s) qc0 =
      qc_sum (map (fun k => nth (k * geom_size geom_ex + i) (data u) qc0) (seq 0 2)).
Proof.
  do 2 eexists. split; [reflexivity|]. split; [reflexivity|].
  eapply (npred_signal_stack_sums_models two_sources_ex geom_ex); try reflexivity.
  discriminate.
Defined.

Lemma stack_cash_background_witness :
  exists s o, stack norm_model wstat_ex cash_unmasked stack_a = Ok (s, o) /\
  o = stack_a /\
  background_ s = Some (map_stack (mkMap geom_ex [qc 1; qc 1]) (mkMap geom_ex [qc 1; qc 1])
                          (Some (mkMap geom_ex [true; false]))).
Proof.
  do 2 eexists. split; [reflexivity|].
  eapply (stack_cash_background norm_model wstat_ex cash_unmasked stack_a _ _
           (mkMap geom_ex [qc 1; qc 1])); reflexivity.
Defined.
